(** * WinKerberos: the SSPI security-context negotiation engine

    A shallow embedding of [src/kerberos_sspi.c] (the client engine:
    init, step, unwrap, wrap, destroy) and of the entry points of
    [src/winkerberos.c] that the verified properties are about.

    The native security package, the C allocator, the base64 codec and
    the few CPython / Win32 services the code calls are external to the
    repository.  They are gathered in one record, [Environment]; every
    function of the model takes it as its first argument.  Each external
    call is recorded, with its arguments, in the [trace] of the [World];
    what the call returns is decided by the environment from the trace so
    far, so a provider may answer differently on every call.

    Lengths are integers of Z.  A [(ULONG)] cast and a sum of ULONG
    fields wrap around at [ULONG_MAX + 1]; [ULONG_MAX] and [INT_MAX] come
    from [limits.h] and are fields of the environment.  Sizes of type
    SIZE_T and Py_ssize_t are the lengths of objects held in memory and
    are not wrapped.  Zeroing and freeing of buffers leave no mark in
    the model. *)

From Stdlib Require Import ZArith List String Ascii Bool Lia.
From Stdlib Require Import Strings.Byte DecimalString.
Import ListNotations.

Local Open Scope string_scope.
Local Open Scope list_scope.
Local Open Scope Z_scope.

(** ** Native types and constants *)

Definition SECURITY_STATUS := Z.
Definition HRESULT := Z.
Definition ULONG := Z.
Definition WCHAR := Z.
Definition CredHandle := Z.
Definition CtxtHandle := Z.

(** Values of the Windows SDK headers ([winerror.h], [sspi.h]). *)
Definition SEC_E_OK : SECURITY_STATUS := 0.
Definition SEC_I_CONTINUE_NEEDED : SECURITY_STATUS := 0x00090312.
Definition S_OK : HRESULT := 0.
Definition SECQOP_WRAP_NO_ENCRYPT : ULONG := 0x80000001.
Definition ISC_REQ_MUTUAL_AUTH : Z := 0x00000002.
Definition ISC_REQ_SEQUENCE_DETECT : Z := 0x00000008.
Definition ISC_REQ_ALLOCATE_MEMORY : Z := 0x00000100.
Definition SECPKG_ATTR_SIZES : ULONG := 0.
Definition SECPKG_ATTR_NAMES : ULONG := 1.
Definition SEC_WINNT_AUTH_IDENTITY_ANSI : ULONG := 1.
Definition sizeof_WCHAR : Z := 2.

(** The quality of protection that asks for confidentiality is the
    default one, 0; [SECQOP_WRAP_NO_ENCRYPT] asks for integrity only. *)
Definition SECQOP_CONFIDENTIALITY : ULONG := 0.

(** The result codes of the engine.  Their numeric values live in
    [kerberos_sspi.h]; the code only compares them with each other. *)
Inductive INT_RESULT :=
| AUTH_GSS_ERROR
| AUTH_GSS_COMPLETE
| AUTH_GSS_CONTINUE.

Definition is_error (r : INT_RESULT) : bool :=
  match r with AUTH_GSS_ERROR => true | _ => false end.

Record SEC_WINNT_AUTH_IDENTITY_A := {
  User : string;
  UserLength : ULONG;
  Domain : option string;
  DomainLength : ULONG;
  Password : option string;
  PasswordLength : ULONG;
  Flags : ULONG
}.

Record SecPkgContext_Sizes := {
  cbSecurityTrailer : ULONG;
  cbBlockSize : ULONG
}.

(** The three buffers of an [EncryptMessage] call after the provider has
    filled them: each is the [cbBuffer] bytes found at its [pvBuffer]. *)
Record WrapBufs := {
  token_bytes : list byte;
  data_bytes : list byte;
  padding_bytes : list byte
}.

(** The arguments of the wide-character engine entry that
    [sspi_client_init] calls. *)
Record client_init_call := {
  ci_service : option (list WCHAR);
  ci_flags : ULONG;
  ci_user : option (list WCHAR);
  ci_ulen : ULONG;
  ci_domain : option (list WCHAR);
  ci_dlen : ULONG;
  ci_password : option (list WCHAR);
  ci_plen : ULONG;
  ci_mechoid : option (list WCHAR)
}.

(** ** The client and server states ([kerberos_sspi.h]) *)

Record sspi_client_state := {
  cred : CredHandle;
  ctx : CtxtHandle;
  spn : option string;
  response : option string;
  username : option string;
  flags : ULONG;
  haveCred : bool;
  haveCtx : bool;
  qop : ULONG
}.

Definition set_cred (s : sspi_client_state) (v : CredHandle) :=
  {| cred := v; ctx := ctx s; spn := spn s; response := response s;
     username := username s; flags := flags s; haveCred := haveCred s;
     haveCtx := haveCtx s; qop := qop s |}.
Definition set_ctx (s : sspi_client_state) (v : CtxtHandle) :=
  {| cred := cred s; ctx := v; spn := spn s; response := response s;
     username := username s; flags := flags s; haveCred := haveCred s;
     haveCtx := haveCtx s; qop := qop s |}.
Definition set_spn (s : sspi_client_state) (v : option string) :=
  {| cred := cred s; ctx := ctx s; spn := v; response := response s;
     username := username s; flags := flags s; haveCred := haveCred s;
     haveCtx := haveCtx s; qop := qop s |}.
Definition set_response (s : sspi_client_state) (v : option string) :=
  {| cred := cred s; ctx := ctx s; spn := spn s; response := v;
     username := username s; flags := flags s; haveCred := haveCred s;
     haveCtx := haveCtx s; qop := qop s |}.
Definition set_username (s : sspi_client_state) (v : option string) :=
  {| cred := cred s; ctx := ctx s; spn := spn s; response := response s;
     username := v; flags := flags s; haveCred := haveCred s;
     haveCtx := haveCtx s; qop := qop s |}.
Definition set_flags (s : sspi_client_state) (v : ULONG) :=
  {| cred := cred s; ctx := ctx s; spn := spn s; response := response s;
     username := username s; flags := v; haveCred := haveCred s;
     haveCtx := haveCtx s; qop := qop s |}.
Definition set_haveCred (s : sspi_client_state) (v : bool) :=
  {| cred := cred s; ctx := ctx s; spn := spn s; response := response s;
     username := username s; flags := flags s; haveCred := v;
     haveCtx := haveCtx s; qop := qop s |}.
Definition set_haveCtx (s : sspi_client_state) (v : bool) :=
  {| cred := cred s; ctx := ctx s; spn := spn s; response := response s;
     username := username s; flags := flags s; haveCred := haveCred s;
     haveCtx := v; qop := qop s |}.

(** Modelled from the spec: the server state is declared in the missing
    [kerberos_sspi.h]; [winkerberos.c] reads its [response], [username]
    and [targetname], and the spec gives it the handles of the client
    state. *)
Module Server.

Record sspi_server_state := {
  cred : CredHandle;
  ctx : CtxtHandle;
  response : option string;
  username : option string;
  targetname : option string;
  haveCred : bool;
  haveCtx : bool
}.

End Server.

(** ** Errors and external calls *)

(** The Python error indicator. *)
Inductive PyErr :=
| PyExc_ValueError (msg : string)
| PyExc_TypeError (msg : string)
| PyExc_MemoryError
| KrbError (msg : string)
| GSSError (code : Z) (msg : string)
| PyExc_FromAPI (api : string).

Inductive Event :=
| E_malloc (size : Z)
| E_PyCapsule_New
| E_AcquireCredentialsHandleA (principal : option string)
    (auth : option SEC_WINNT_AUTH_IDENTITY_A)
| E_InitializeSecurityContextA (c : CredHandle) (x : option CtxtHandle)
    (target : option string) (req : Z) (input : option (list byte))
| E_QueryContextAttributes (x : CtxtHandle) (attr : ULONG)
| E_EncryptMessage (x : CtxtHandle) (fQOP : ULONG) (trailer_capacity : ULONG)
    (payload : list byte) (padding_capacity : ULONG)
| E_DecryptMessage (x : CtxtHandle) (stream : list byte)
| E_DeleteSecurityContext (x : CtxtHandle)
| E_FreeCredentialsHandle (c : CredHandle)
| E_ImpersonateSecurityContext (x : CtxtHandle)
| E_RevertSecurityContext (x : CtxtHandle)
| E_auth_sspi_client_init (args : client_init_call).

(** The calls that reach the security provider. *)
Definition is_provider_call (e : Event) : bool :=
  match e with
  | E_malloc _ | E_PyCapsule_New => false
  | _ => true
  end.

Definition provider_calls (t : list Event) : list Event :=
  filter is_provider_call t.

Record Environment := {
  (* limits.h *)
  ULONG_MAX : Z;
  INT_MAX : Z;
  (* the allocator: does the next malloc of this size succeed *)
  malloc_ok : list Event -> Z -> bool;
  (* base64.h; a NULL result of the encoder is None, a NULL result of the
     decoder is the empty buffer *)
  base64_encode : list byte -> option string;
  base64_decode : string -> list byte;
  (* Win32 *)
  FormatMessageA : Z -> option string;
  GetLastError : list Event -> Z;
  MultiByteToWideChar : list byte -> Z -> list WCHAR;
  UrlUnescapeW : list WCHAR -> HRESULT * list WCHAR;
  (* CPython *)
  PyUnicode_AsWideChar : list WCHAR -> Z -> option (list WCHAR);
  PyCapsule_New_ok : list Event -> bool;
  (* the security package *)
  AcquireCredentialsHandleA :
    list Event -> option string -> option SEC_WINNT_AUTH_IDENTITY_A ->
    SECURITY_STATUS * CredHandle;
  InitializeSecurityContextA :
    list Event -> CredHandle -> option CtxtHandle -> option string -> Z ->
    option (list byte) -> SECURITY_STATUS * CtxtHandle * list byte;
  QueryContextAttributes_Names :
    list Event -> CtxtHandle -> SECURITY_STATUS * string;
  QueryContextAttributes_Sizes :
    list Event -> CtxtHandle -> SECURITY_STATUS * SecPkgContext_Sizes;
  EncryptMessage :
    list Event -> CtxtHandle -> ULONG -> ULONG -> list byte -> ULONG ->
    SECURITY_STATUS * WrapBufs;
  DecryptMessage :
    list Event -> CtxtHandle -> list byte ->
    SECURITY_STATUS * list byte * ULONG;
  ImpersonateSecurityContext : list Event -> CtxtHandle -> SECURITY_STATUS;
  RevertSecurityContext : list Event -> CtxtHandle -> SECURITY_STATUS;
  (* kerberos_sspi.h: a mechanism name, the size of the client state, and
     the engine entry that sspi_client_init calls.  That call passes ten
     arguments, wide strings with their lengths; auth_sspi_client_init of
     kerberos_sspi.c takes seven, narrow strings, so the entry called is
     not that function and is left to the environment: it returns the
     result code, the state it has filled in and the error it has set. *)
  GSS_MECH_OID_KRB5 : list WCHAR;
  sizeof_sspi_client_state : Z;
  auth_sspi_client_init_W :
    list Event -> client_init_call ->
    INT_RESULT * sspi_client_state * option PyErr
}.

(** ** The world and its monad *)

Record World := {
  trace : list Event;
  pyerr : option PyErr
}.

Definition M (A : Type) : Type := World -> A * World.

Definition ret {A} (a : A) : M A := fun w => (a, w).

Definition bind {A B} (m : M A) (k : A -> M B) : M B :=
  fun w => let (a, w') := m w in k a w'.

Notation "x <- m ;; k" := (bind m (fun x => k))
  (at level 61, m at next level, right associativity).
Notation "' pat <- m ;; k" := (bind m (fun x => match x with pat => k end))
  (at level 61, pat pattern, m at next level, right associativity).
Notation "m ;;; k" := (bind m (fun _ => k))
  (at level 61, right associativity).

(** [call e f] performs the external call [e]: its result is what the
    environment answers on the trace so far. *)
Definition call {R} (e : Event) (answer : list Event -> R) : M R :=
  fun w => (answer (trace w), {| trace := trace w ++ [e]; pyerr := pyerr w |}).

Definition PyErr_Set (e : PyErr) : M unit :=
  fun w => (tt, {| trace := trace w; pyerr := Some e |}).

Definition PyErr_SetOpt (e : option PyErr) : M unit :=
  fun w => (tt, {| trace := trace w;
                   pyerr := match e with Some _ => e | None => pyerr w end |}).

(** ** C strings *)

(** A [SEC_CHAR*] string is modelled by its characters up to the
    terminating NUL, a [WCHAR*] buffer by its wide characters; the C
    string held by a wide buffer stops at its first NUL. *)
Definition strlen (s : string) : Z := Z.of_nat (String.length s).

Fixpoint wcs (buf : list WCHAR) : list WCHAR :=
  match buf with
  | [] => []
  | c :: rest => if c =? 0 then [] else c :: wcs rest
  end.

Definition wcslen (buf : list WCHAR) : Z := Z.of_nat (List.length (wcs buf)).

Fixpoint strchr (s : string) (c : ascii) : bool :=
  match s with
  | EmptyString => false
  | String a rest => if Ascii.eqb a c then true else strchr rest c
  end.

(** [*strchr(s, c) = d]: the first [c] of [s] is overwritten with [d]. *)
Fixpoint poke_first (s : string) (c d : ascii) : string :=
  match s with
  | EmptyString => EmptyString
  | String a rest =>
      if Ascii.eqb a c then String d rest else String a (poke_first rest c d)
  end.

Definition wchar_of_ascii (a : ascii) : WCHAR := Z.of_N (N_of_ascii a).

(** The wide literal [L"..."]. *)
Definition L (s : string) : list WCHAR :=
  map wchar_of_ascii (list_ascii_of_string s).

Definition bytes_of_string (s : string) : list byte := list_byte_of_string s.

(** ** The engine, [kerberos_sspi.c] *)

Section Engine.

Variable E : Environment.

(** A [(ULONG)] cast of a size. *)
Definition to_ULONG (n : Z) : ULONG := n mod (ULONG_MAX E + 1).

(** The buffer a [SecBuffer] describes when its [pvBuffer] points to [b]
    and its [cbBuffer] is [(ULONG)len]. *)
Definition SecBuffer_of (b : list byte) : list byte :=
  firstn (Z.to_nat (to_ULONG (Z.of_nat (List.length b)))) b.

Definition malloc (size : Z) : M bool :=
  call (E_malloc size) (fun h => malloc_ok E h size).

(** [_strdup]: the copy, or NULL when the allocation fails. *)
Definition _strdup (s : string) : M (option string) :=
  ok <- malloc (strlen s + 1) ;;
  ret (if ok then Some s else None).

Definition set_krberror (errCode : Z) (msg : string) : M unit :=
  match FormatMessageA E (to_ULONG errCode) with
  | Some err => PyErr_Set (KrbError ("SSPI: " ++ msg ++ ": " ++ err)%string)
  | None => PyErr_Set (KrbError ("SSPI: " ++ msg)%string)
  end.

Definition uninitialized_context_message : string :=
  "Uninitialized security context. You must use authGSSClientStep to initialize the security context before calling this function.".

Definition set_uninitialized_context : M unit :=
  PyErr_Set (KrbError uninitialized_context_message).

Definition destroy_sspi_client_state (state : sspi_client_state)
  : M sspi_client_state :=
  state <- (if haveCtx state
            then call (E_DeleteSecurityContext (ctx state)) (fun _ => tt) ;;;
                 ret (set_haveCtx state false)
            else ret state) ;;
  state <- (if haveCred state
            then call (E_FreeCredentialsHandle (cred state)) (fun _ => tt) ;;;
                 ret (set_haveCred state false)
            else ret state) ;;
  let state := match spn state with
               | Some _ => set_spn state None | None => state end in
  let state := match response state with
               | Some _ => set_response state None | None => state end in
  let state := match username state with
               | Some _ => set_username state None | None => state end in
  ret state.

(** Convert RFC-2078 format to SPN. *)
Definition rfc2078_to_spn (s : string) : string :=
  if strchr s "/"%char then s else poke_first s "@"%char "/"%char.

Definition auth_sspi_client_init (service : string) (principal : option string)
    (flags : ULONG) (user domain password : option string)
    (state : sspi_client_state) : M (INT_RESULT * sspi_client_state) :=
  let state := set_response state None in
  let state := set_username state None in
  let state := set_flags state flags in
  let state := set_haveCred state false in
  let state := set_haveCtx state false in
  dup <- _strdup service ;;
  let state := set_spn state dup in
  match dup with
  | None => PyErr_Set PyExc_MemoryError ;;; ret (AUTH_GSS_ERROR, state)
  | Some s =>
      let state := set_spn state (Some (rfc2078_to_spn s)) in
      let authIdentity :=
        match user with
        | Some u =>
            Some {| User := u;
                    UserLength := to_ULONG (strlen u);
                    Domain := domain;
                    DomainLength := match domain with
                                    | Some d => to_ULONG (strlen d)
                                    | None => 0 end;
                    Password := password;
                    PasswordLength := match password with
                                      | Some p => to_ULONG (strlen p)
                                      | None => 0 end;
                    Flags := SEC_WINNT_AUTH_IDENTITY_ANSI |}
        | None => None
        end in
      '(status, newcred) <-
        call (E_AcquireCredentialsHandleA principal authIdentity)
             (fun h => AcquireCredentialsHandleA E h principal authIdentity) ;;
      let state := set_cred state newcred in
      if negb (status =? SEC_E_OK) then
        set_krberror status "AcquireCredentialsHandle" ;;;
        ret (AUTH_GSS_ERROR, state)
      else
        ret (AUTH_GSS_COMPLETE, set_haveCred state true)
  end.

Definition auth_sspi_client_step (state : sspi_client_state)
    (challenge : string) : M (INT_RESULT * sspi_client_state) :=
  let state := match response state with
               | Some _ => set_response state None | None => state end in
  let inbuf := if haveCtx state
               then Some (SecBuffer_of (base64_decode E challenge))
               else None in
  let phContext := if haveCtx state then Some (ctx state) else None in
  let req := Z.lor ISC_REQ_ALLOCATE_MEMORY (flags state) in
  '(status, newctx, out) <-
    call (E_InitializeSecurityContextA (cred state) phContext (spn state)
            req inbuf)
         (fun h => InitializeSecurityContextA E h (cred state) phContext
                     (spn state) req inbuf) ;;
  let state := set_ctx state newctx in
  if negb (status =? SEC_E_OK) && negb (status =? SEC_I_CONTINUE_NEEDED) then
    set_krberror status "InitializeSecurityContext" ;;;
    ret (AUTH_GSS_ERROR, state)
  else
    let state := set_haveCtx state true in
    let state := match out with
                 | [] => state
                 | _ :: _ => set_response state (base64_encode E out)
                 end in
    if status =? SEC_E_OK then
      (* Get authenticated username. *)
      '(status, sUserName) <-
        call (E_QueryContextAttributes (ctx state) SECPKG_ATTR_NAMES)
             (fun h => QueryContextAttributes_Names E h (ctx state)) ;;
      if negb (status =? SEC_E_OK) then
        set_krberror status "QueryContextAttributes" ;;;
        ret (AUTH_GSS_ERROR, state)
      else
        dup <- _strdup sUserName ;;
        let state := set_username state dup in
        match dup with
        | None => PyErr_Set PyExc_MemoryError ;;; ret (AUTH_GSS_ERROR, state)
        | Some _ => ret (AUTH_GSS_COMPLETE, state)
        end
    else
      ret (AUTH_GSS_CONTINUE, state).

Definition auth_sspi_client_unwrap (state : sspi_client_state)
    (challenge : string) : M (INT_RESULT * sspi_client_state) :=
  let state := match response state with
               | Some _ => set_response state None | None => state end in
  if negb (haveCtx state) then
    set_uninitialized_context ;;; ret (AUTH_GSS_ERROR, state)
  else
    let stream := SecBuffer_of (base64_decode E challenge) in
    (* pfQOP is NULL: the quality of protection the provider found is
       not received *)
    '(status, data, _) <-
      call (E_DecryptMessage (ctx state) stream)
           (fun h => DecryptMessage E h (ctx state) stream) ;;
    if status =? SEC_E_OK then
      ret (AUTH_GSS_COMPLETE,
           match data with
           | [] => state
           | _ :: _ => set_response state (base64_encode E data)
           end)
    else
      set_krberror status "DecryptMessage" ;;;
      ret (AUTH_GSS_ERROR, state).

(** The plaintext [auth_sspi_client_wrap] hands to the provider. *)
Definition plaintextMessage (data : string) (user : option string)
  : list byte :=
  match user with
  | Some u =>
      (* Authenticate the provided user: 1 = no security layer. *)
      [x01; x00; x00; x00]%byte ++ bytes_of_string u
  | None =>
      (* No user provided. Just rewrap data. *)
      base64_decode E data
  end.

Definition auth_sspi_client_wrap (state : sspi_client_state)
    (data : string) (user : option string)
  : M (INT_RESULT * sspi_client_state) :=
  let state := match response state with
               | Some _ => set_response state None | None => state end in
  if negb (haveCtx state) then
    set_uninitialized_context ;;; ret (AUTH_GSS_ERROR, state)
  else
    '(status, sizes) <-
      call (E_QueryContextAttributes (ctx state) SECPKG_ATTR_SIZES)
           (fun h => QueryContextAttributes_Sizes E h (ctx state)) ;;
    if negb (status =? SEC_E_OK) then
      set_krberror status "QueryContextAttributes" ;;;
      ret (AUTH_GSS_ERROR, state)
    else
      let plaintext := plaintextMessage data user in
      let plaintextMessageSize := Z.of_nat (List.length plaintext) in
      ok <- malloc (cbSecurityTrailer sizes + plaintextMessageSize
                    + cbBlockSize sizes) ;;
      if negb ok then
        PyErr_Set PyExc_MemoryError ;;; ret (AUTH_GSS_ERROR, state)
      else
        let payload := SecBuffer_of plaintext in
        '(status, wrapBufs) <-
          call (E_EncryptMessage (ctx state) SECQOP_WRAP_NO_ENCRYPT
                  (cbSecurityTrailer sizes) payload (cbBlockSize sizes))
               (fun h => EncryptMessage E h (ctx state) SECQOP_WRAP_NO_ENCRYPT
                           (cbSecurityTrailer sizes) payload
                           (cbBlockSize sizes)) ;;
        if negb (status =? SEC_E_OK) then
          set_krberror status "EncryptMessage" ;;;
          ret (AUTH_GSS_ERROR, state)
        else
          (* the sum of the three cbBuffer fields, in ULONG arithmetic *)
          let outbufSize :=
            to_ULONG (Z.of_nat (List.length (token_bytes wrapBufs))
                      + Z.of_nat (List.length (data_bytes wrapBufs))
                      + Z.of_nat (List.length (padding_bytes wrapBufs))) in
          ok <- malloc outbufSize ;;
          if negb ok then
            PyErr_Set PyExc_MemoryError ;;; ret (AUTH_GSS_ERROR, state)
          else
            let outbuf := token_bytes wrapBufs ++ data_bytes wrapBufs
                          ++ padding_bytes wrapBufs in
            ret (AUTH_GSS_COMPLETE,
                 set_response state
                   (base64_encode E (firstn (Z.to_nat outbufSize) outbuf))).

End Engine.

(** ** Python objects, as far as [winkerberos.c] looks at them *)

Record Py_buffer := {
  buf : option (list byte);
  len : Z;
  itemsize : Z;
  c_contiguous : bool
}.

(** What the pointer held by a capsule points to. *)
Inductive VoidPtr :=
| NULL
| client_state_ptr (state : sspi_client_state)
| server_state_ptr (state : Server.sspi_server_state)
| mech_oid_ptr (oid : list WCHAR).

Inductive PyObject :=
| Py_None
| PyUnicode (chars : list WCHAR)
| PyBytesLike (tp_name : string) (view : Py_buffer)
| PyInt (v : Z)
| PyInt_AUTH_GSS (result : INT_RESULT)
| PyTuple (first second : PyObject)
| PyCapsule (pointer : VoidPtr)
| PyOther (tp_name : string).

Definition tp_name_of (o : PyObject) : string :=
  match o with
  | Py_None => "None"
  | PyUnicode _ => "str"
  | PyBytesLike n _ => n
  | PyInt _ | PyInt_AUTH_GSS _ => "int"
  | PyTuple _ _ => "tuple"
  | PyCapsule _ => "PyCapsule"
  | PyOther n => n
  end.

(** ** The C run-time tokenizer *)

Definition wchar_in (c : WCHAR) (set : list WCHAR) : bool :=
  existsb (Z.eqb c) set.

Definition wcschr (s : list WCHAR) (c : WCHAR) : bool := wchar_in c (wcs s).

(** [s + wcsspn(s, delim)]. *)
Fixpoint skip_delimiters (delim s : list WCHAR) : list WCHAR :=
  match s with
  | [] => []
  | c :: rest => if wchar_in c delim then skip_delimiters delim rest else s
  end.

(** The token at the head of [s] and what follows its delimiter. *)
Fixpoint split_token (delim s : list WCHAR) : list WCHAR * list WCHAR :=
  match s with
  | [] => ([], [])
  | c :: rest =>
      if wchar_in c delim then ([], rest)
      else let (tok, next) := split_token delim rest in (c :: tok, next)
  end.

(** [wcstok_s(str, delim, &context)]: with [str = None] (NULL) the scan
    resumes at [context].  The result is the token, or None when only
    delimiters are left, and the new context. *)
Definition wcstok_s (str : option (list WCHAR)) (delim context : list WCHAR)
  : option (list WCHAR) * list WCHAR :=
  let s := match str with Some s => wcs s | None => context end in
  match skip_delimiters delim s with
  | [] => (None, [])
  | c :: rest => let (tok, next) := split_token delim (c :: rest) in
                 (Some tok, next)
  end.

(** ** The binding layer, [winkerberos.c] *)

(** The identity [sspi_client_init] hands to the engine. *)
Record identity := {
  id_user : option (list WCHAR);
  id_ulen : Z;
  id_domain : option (list WCHAR);
  id_dlen : Z;
  id_password : option (list WCHAR);
  id_plen : Z
}.

Section Binding.

Variable E : Environment.

Definition _string_too_long (key : string) (n : Z) : M bool :=
  if n >? ULONG_MAX E then
    PyErr_Set (PyExc_ValueError (key ++ " too large")%string) ;;; ret true
  else ret false.

(** Modelled from the spec: [set_gsserror] is declared in the missing
    [kerberos_sspi.h]; a provider error carries the operation name and the
    native status code. *)
Definition set_gsserror (errCode : Z) (msg : string) : M unit :=
  PyErr_Set (GSSError errCode msg).

Definition _wcsdup (s : list WCHAR) : M (option (list WCHAR)) :=
  ok <- malloc E (sizeof_WCHAR * (wcslen s + 1)) ;;
  ret (if ok then Some (wcs s) else None).

Definition _py_buffer_to_wchar (obj : PyObject)
  : M (option (option (list WCHAR) * Z)) :=
  match obj with
  | PyBytesLike _ view =>
      if negb (c_contiguous view) then
        PyErr_Set (PyExc_ValueError "must be a contiguous buffer") ;;; ret None
      else
        match buf view with
        | None => PyErr_Set (PyExc_ValueError "invalid buffer") ;;; ret None
        | Some b =>
            if len view <? 0 then
              PyErr_Set (PyExc_ValueError "invalid buffer") ;;; ret None
            else if negb (itemsize view =? 1) then
              PyErr_Set (PyExc_ValueError "buffer data must be ascii or utf8") ;;;
              ret None
            else if len view >? INT_MAX E then
              (* MultiByteToWideChar expects length as a signed int. *)
              PyErr_Set (PyExc_ValueError "buffer too large") ;;; ret None
            else
              ok <- malloc E (sizeof_WCHAR * (len view + 1)) ;;
              if negb ok then PyErr_Set PyExc_MemoryError ;;; ret None
              else
                let outbuf := MultiByteToWideChar E b (len view) in
                let result_len := Z.of_nat (List.length outbuf) in
                if result_len =? 0 then
                  (fun w => set_gsserror (GetLastError E (trace w))
                              "MultiByteToWideChar failed" w) ;;;
                  ret None
                else ret (Some (Some outbuf, result_len))
        end
  | _ =>
      (* PyObject_GetBuffer fails and sets the error *)
      PyErr_Set (PyExc_FromAPI "PyObject_GetBuffer") ;;; ret None
  end.

Definition _py_unicode_to_wchar (chars : list WCHAR)
  : M (option (option (list WCHAR) * Z)) :=
  let len := Z.of_nat (List.length chars) in
  ok <- malloc E (sizeof_WCHAR * (len + 1)) ;;
  if negb ok then PyErr_Set PyExc_MemoryError ;;; ret None
  else
    match PyUnicode_AsWideChar E chars len with
    | None => PyErr_Set (PyExc_FromAPI "PyUnicode_AsWideChar") ;;; ret None
    | Some copied =>
        (* buf[len] = L'\0' *)
        let buf := firstn (Z.to_nat len) copied in
        if negb (wcslen buf =? len) then
          PyErr_Set (PyExc_ValueError "embedded null character") ;;; ret None
        else ret (Some (Some buf, len))
    end.

Definition BufferObject_AsWCHAR (arg : PyObject)
  : M (option (option (list WCHAR) * Z)) :=
  match arg with
  | Py_None => ret (Some (None, 0))
  | PyUnicode chars => _py_unicode_to_wchar chars
  | _ => _py_buffer_to_wchar arg
  end.

(** The Python 3 build ([PY_MAJOR_VERSION >= 3]). *)
Definition StringObject_AsWCHAR (arg : PyObject) (argnum : Z)
    (allow_none : bool) : M (option (option (list WCHAR) * Z)) :=
  match arg, allow_none with
  | Py_None, true => ret (Some (None, 0))
  | PyUnicode chars, _ => _py_unicode_to_wchar chars
  | _, _ =>
      PyErr_Set (PyExc_TypeError
        ("argument " ++ NilZero.string_of_int (Z.to_int argnum)
         ++ " must be str" ++ (if allow_none then " or None" else "")
         ++ ", not " ++ tp_name_of arg)%string) ;;;
      ret None
  end.

(** Lines 305-309 of [sspi_client_init]: the five conversions, in order;
    the first that fails ends the call. *)
Definition convert_arguments
    (serviceobj principalobj userobj domainobj passwordobj : PyObject)
  : M (option (option (list WCHAR) * option (list WCHAR) * identity)) :=
  r <- StringObject_AsWCHAR serviceobj 1 false ;;
  match r with None => ret None | Some (service, slen) =>
  r <- BufferObject_AsWCHAR principalobj ;;
  match r with None => ret None | Some (principal, len) =>
  r <- StringObject_AsWCHAR userobj 4 true ;;
  match r with None => ret None | Some (user, ulen) =>
  r <- StringObject_AsWCHAR domainobj 5 true ;;
  match r with None => ret None | Some (domain, dlen) =>
  r <- BufferObject_AsWCHAR passwordobj ;;
  match r with None => ret None | Some (password, plen) =>
  ret (Some (service, principal,
             {| id_user := user; id_ulen := ulen;
                id_domain := domain; id_dlen := dlen;
                id_password := password; id_plen := plen |}))
  end end end end end.

(** Lines 310-312: true when one of the three lengths is too large. *)
Definition check_lengths (id : identity) : M bool :=
  long <- _string_too_long "user" (id_ulen id) ;;
  if long then ret true else
  long <- _string_too_long "domain" (id_dlen id) ;;
  if long then ret true else
  _string_too_long "password" (id_plen id).

(** Lines 316-368: prefer (user, domain, password) for backward
    compatibility; without a user the identity is taken from the
    principal.  [dlen] is not touched, and [plen] only when the principal
    carries a password. *)
Definition resolve_identity (principal : option (list WCHAR)) (id : identity)
  : M (option identity) :=
  match id_user id, principal with
  | None, Some principal =>
      (* Use (user, domain, password) or principal, not a mix of both. *)
      let domain : option (list WCHAR) := None in
      r <- (if wcschr principal (wchar_of_ascii ":") then
              (* Support password as part of the principal parameter. *)
              let (current, next) := wcstok_s (Some principal) (L ":") [] in
              match current with
              | None => PyErr_Set PyExc_MemoryError ;;; ret None
              | Some current =>
                  user <- _wcsdup current ;;
                  match user with
                  | None => PyErr_Set PyExc_MemoryError ;;; ret None
                  | Some user =>
                      let (current, next) := wcstok_s None (L ":") next in
                      match current with
                      | None => PyErr_Set PyExc_MemoryError ;;; ret None
                      | Some current =>
                          password <- _wcsdup current ;;
                          match password with
                          | None => PyErr_Set PyExc_MemoryError ;;; ret None
                          | Some password => ret (Some (user, Some password))
                          end
                      end
                  end
              end
            else
              user <- _wcsdup principal ;;
              match user with
              | None => PyErr_Set PyExc_MemoryError ;;; ret None
              | Some user => ret (Some (user, None))
              end) ;;
      match r with
      | None => ret None
      | Some (user, password) =>
          (* Support user principal or password including the : character. *)
          let (res, user) := UrlUnescapeW E user in
          if negb (res =? S_OK) then
            set_gsserror res "UrlUnescapeW" ;;; ret None
          else
            match password with
            | Some password =>
                let (res, password) := UrlUnescapeW E password in
                if negb (res =? S_OK) then
                  set_gsserror res "UrlUnescapeW" ;;; ret None
                else
                  ret (Some {| id_user := Some user; id_ulen := wcslen user;
                               id_domain := domain; id_dlen := id_dlen id;
                               id_password := Some password;
                               id_plen := wcslen password |})
            | None =>
                ret (Some {| id_user := Some user; id_ulen := wcslen user;
                             id_domain := domain; id_dlen := id_dlen id;
                             id_password := None; id_plen := id_plen id |})
            end
      end
  | _, _ => ret (Some id)
  end.

(** Lines 370-380. *)
Definition resolve_mech_oid (mechoidobj : PyObject)
  : M (option (option (list WCHAR))) :=
  match mechoidobj with
  | Py_None => ret (Some (Some (GSS_MECH_OID_KRB5 E)))
  | PyCapsule (mech_oid_ptr oid) => ret (Some (Some oid))
  | PyCapsule _ =>
      (* a NULL pointer; a capsule of another kind is outside the model
         and is treated alike *)
      PyErr_Set (PyExc_TypeError "Invalid value for mech_oid") ;;; ret None
  | _ => PyErr_Set (PyExc_TypeError "Invalid type for mech_oid") ;;; ret None
  end.

(** [destroy_sspi_client]: the destructor of the capsule. *)
Definition destroy_sspi_client (p : VoidPtr) : M unit :=
  match p with
  | client_state_ptr state => destroy_sspi_client_state state ;;; ret tt
  | _ => ret tt
  end.

(** Lines 370-402: the mechanism, the state, its capsule and the call of
    the engine with the identity settled so far. *)
Definition create_context (service : option (list WCHAR)) (flags : Z)
    (id : identity) (mechoidobj : PyObject) : M (option PyObject) :=
  r <- resolve_mech_oid mechoidobj ;;
  match r with None => ret None | Some mechoid =>
  ok <- malloc E (sizeof_sspi_client_state E) ;;
  if negb ok then PyErr_Set PyExc_MemoryError ;;; ret None else
  ok <- call E_PyCapsule_New (PyCapsule_New_ok E) ;;
  if negb ok then PyErr_Set (PyExc_FromAPI "PyCapsule_New") ;;; ret None else
  let args := {| ci_service := service; ci_flags := to_ULONG E flags;
                 ci_user := id_user id; ci_ulen := to_ULONG E (id_ulen id);
                 ci_domain := id_domain id;
                 ci_dlen := to_ULONG E (id_dlen id);
                 ci_password := id_password id;
                 ci_plen := to_ULONG E (id_plen id);
                 ci_mechoid := mechoid |} in
  '(result, state, err) <-
    call (E_auth_sspi_client_init args)
         (fun h => auth_sspi_client_init_W E h args) ;;
  PyErr_SetOpt err ;;;
  if is_error result then
    (* Py_DECREF(pyctx) runs the destructor of the capsule *)
    destroy_sspi_client (client_state_ptr state) ;;; ret None
  else
    ret (Some (PyTuple (PyInt_AUTH_GSS result)
                       (PyCapsule (client_state_ptr state))))
  end.

(** [sspi_client_init], from after the parsing of its arguments.  The
    result is the Python object returned, None for NULL (an error is
    set). *)
Definition sspi_client_init (serviceobj principalobj : PyObject) (flags : Z)
    (userobj domainobj passwordobj mechoidobj : PyObject)
  : M (option PyObject) :=
  if flags <? 0 then
    PyErr_Set (PyExc_ValueError "gss_flags must be >= 0") ;;; ret None
  else
  r <- convert_arguments serviceobj principalobj userobj domainobj
         passwordobj ;;
  match r with None => ret None | Some (service, principal, id) =>
  long <- check_lengths id ;;
  if long then ret None else
  r <- resolve_identity principal id ;;
  match r with None => ret None | Some id =>
  create_context service flags id mechoidobj
  end end.

(** The entry points below are modelled from after the parsing of their
    arguments.  They return the Python result (None is NULL, an error is
    set) together with the context object, whose state the call may have
    changed.  A capsule that holds something else than a client state is
    outside the model; it takes the [state == NULL] exit. *)

Definition sspi_client_unwrap (pyctx : PyObject) (challenge : string)
  : M (option PyObject * PyObject) :=
  long <- _string_too_long "challenge" (strlen challenge) ;;
  if long then ret (None, pyctx) else
  match pyctx with
  | PyCapsule (client_state_ptr state) =>
      '(result, state) <- auth_sspi_client_unwrap E state challenge ;;
      let pyctx := PyCapsule (client_state_ptr state) in
      if is_error result then ret (None, pyctx)
      else ret (Some (PyInt_AUTH_GSS result), pyctx)
  | PyCapsule _ => ret (None, pyctx)
  | _ =>
      PyErr_Set (PyExc_TypeError "Expected a context object") ;;;
      ret (None, pyctx)
  end.

(** [kerberos_sspi.c] defines [auth_sspi_client_wrap] with the three
    parameters [state], [data] and [user]; the arguments [(ULONG)ulen] and
    [protect] of the call below have no parameter to land in. *)
Definition sspi_client_wrap (pyctx : PyObject) (data : string)
    (user : option string) (protect : Z) : M (option PyObject * PyObject) :=
  let ulen := match user with Some u => strlen u | None => 0 end in
  long <- _string_too_long "data" (strlen data) ;;
  if long then ret (None, pyctx) else
  (* Length of user + 4 bytes for security options. *)
  long <- _string_too_long "user" (ulen + 4) ;;
  if long then ret (None, pyctx) else
  match pyctx with
  | PyCapsule (client_state_ptr state) =>
      '(result, state) <- auth_sspi_client_wrap E state data user ;;
      let pyctx := PyCapsule (client_state_ptr state) in
      if is_error result then ret (None, pyctx)
      else ret (Some (PyInt_AUTH_GSS result), pyctx)
  | PyCapsule _ => ret (None, pyctx)
  | _ =>
      PyErr_Set (PyExc_TypeError "Expected a context object") ;;;
      ret (None, pyctx)
  end.

Definition sspi_client_response_conf (pyctx : PyObject)
  : M (option PyObject) :=
  match pyctx with
  | PyCapsule (client_state_ptr state) =>
      ret (Some (PyInt (if negb (qop state =? SECQOP_WRAP_NO_ENCRYPT)
                        then 1 else 0)))
  | PyCapsule _ => ret None
  | _ =>
      PyErr_Set (PyExc_TypeError "Expected a context object") ;;; ret None
  end.

(** Modelled from the spec: [auth_sspi_server_impersonate] is declared in
    the missing [kerberos_sspi.h] and defined nowhere under [src/].  The
    spec has it require an established context, delegate to the security
    provider, fail with a provider error on the underlying failure and
    return success otherwise. *)
Definition auth_sspi_server_impersonate (state : Server.sspi_server_state)
  : M INT_RESULT :=
  if negb (Server.haveCtx state) then
    set_uninitialized_context ;;; ret AUTH_GSS_ERROR
  else
    status <- call (E_ImpersonateSecurityContext (Server.ctx state))
                (fun h => ImpersonateSecurityContext E h (Server.ctx state)) ;;
    if negb (status =? SEC_E_OK) then
      set_gsserror status "ImpersonateSecurityContext" ;;; ret AUTH_GSS_ERROR
    else ret AUTH_GSS_COMPLETE.

(** Modelled from the spec: [auth_sspi_server_revert] is declared in the
    missing [kerberos_sspi.h] and defined nowhere under [src/]; same
    contract as [auth_sspi_server_impersonate]. *)
Definition auth_sspi_server_revert (state : Server.sspi_server_state)
  : M INT_RESULT :=
  if negb (Server.haveCtx state) then
    set_uninitialized_context ;;; ret AUTH_GSS_ERROR
  else
    status <- call (E_RevertSecurityContext (Server.ctx state))
                (fun h => RevertSecurityContext E h (Server.ctx state)) ;;
    if negb (status =? SEC_E_OK) then
      set_gsserror status "RevertSecurityContext" ;;; ret AUTH_GSS_ERROR
    else ret AUTH_GSS_COMPLETE.

Definition sspi_server_impersonate (pyctx : PyObject) : M (option PyObject) :=
  match pyctx with
  | PyCapsule (server_state_ptr state) =>
      result <- auth_sspi_server_impersonate state ;;
      ret (Some (PyInt_AUTH_GSS result))
  | PyCapsule _ => ret None
  | _ =>
      PyErr_Set (PyExc_TypeError "Expected a context object") ;;; ret None
  end.

Definition sspi_server_revert (pyctx : PyObject) : M (option PyObject) :=
  match pyctx with
  | PyCapsule (server_state_ptr state) =>
      result <- auth_sspi_server_revert state ;;
      ret (Some (PyInt_AUTH_GSS result))
  | PyCapsule _ => ret None
  | _ =>
      PyErr_Set (PyExc_TypeError "Expected a context object") ;;; ret None
  end.

End Binding.

(** ** A mock environment

    A security provider in the style of a test double: every call
    succeeds, the context sizes are a 16-byte trailer and an 8-byte
    block, the codec is base64, and URL unescaping is a percent
    decoder.  Its parameters choose the width of ULONG, whether
    [EncryptMessage] fills the padding buffer or returns it empty, the
    quality of protection [DecryptMessage] finds, and the status of the
    impersonation calls. *)

Definition hex_digit (c : WCHAR) : option Z :=
  if (48 <=? c) && (c <=? 57) then Some (c - 48)
  else if (65 <=? c) && (c <=? 70) then Some (c - 55)
  else if (97 <=? c) && (c <=? 102) then Some (c - 87)
  else None.

Fixpoint percent_decode (s : list WCHAR) : list WCHAR :=
  match s with
  | [] => []
  | c :: tl =>
      if c =? 37 then
        match tl with
        | h :: l :: rest =>
            match hex_digit h, hex_digit l with
            | Some a, Some b => (16 * a + b) :: percent_decode rest
            | _, _ => c :: percent_decode tl
            end
        | _ => c :: percent_decode tl
        end
      else c :: percent_decode tl
  end.

Definition base64_alphabet : string :=
  "ABCDEFGHIJKLMNOPQRSTUVWXYZabcdefghijklmnopqrstuvwxyz0123456789+/".

Definition base64_char (n : N) : ascii :=
  match String.get (N.to_nat n) base64_alphabet with
  | Some c => c
  | None => "="%char
  end.

Definition base64_value (c : ascii) : option N :=
  let n := N_of_ascii c in
  (if (65 <=? n) && (n <=? 90) then Some (n - 65)
   else if (97 <=? n) && (n <=? 122) then Some (n - 71)
   else if (48 <=? n) && (n <=? 57) then Some (n + 4)
   else if n =? 43 then Some 62
   else if n =? 47 then Some 63
   else None)%N.

Definition byte_of_N (n : N) : byte :=
  match Byte.of_N n with Some b => b | None => x00%byte end.

Fixpoint mock_base64_encode (b : list byte) : string :=
  match b with
  | [] => ""
  | [x] =>
      let n := Byte.to_N x in
      String (base64_char (n / 4))
        (String (base64_char ((n mod 4) * 16)) "==")
  | [x; y] =>
      let n := Byte.to_N x in
      let m := Byte.to_N y in
      String (base64_char (n / 4))
        (String (base64_char ((n mod 4) * 16 + m / 16))
           (String (base64_char ((m mod 16) * 4)) "="))
  | x :: y :: z :: rest =>
      let n := Byte.to_N x in
      let m := Byte.to_N y in
      let k := Byte.to_N z in
      String (base64_char (n / 4))
        (String (base64_char ((n mod 4) * 16 + m / 16))
           (String (base64_char ((m mod 16) * 4 + k / 64))
              (String (base64_char (k mod 64)) (mock_base64_encode rest))))
  end%N.

Fixpoint mock_base64_decode (s : string) : list byte :=
  match s with
  | String a (String b (String c (String d rest))) =>
      match base64_value a, base64_value b with
      | Some va, Some vb =>
          let b1 := byte_of_N (va * 4 + vb / 16) in
          match base64_value c with
          | Some vc =>
              let b2 := byte_of_N ((vb mod 16) * 16 + vc / 4) in
              match base64_value d with
              | Some vd =>
                  b1 :: b2 :: byte_of_N ((vc mod 4) * 64 + vd)
                     :: mock_base64_decode rest
              | None => [b1; b2]
              end
          | None => [b1]
          end
      | _, _ => []
      end
  | _ => []
  end%N.

Definition zeroed_state : sspi_client_state :=
  {| cred := 0; ctx := 0; spn := None; response := None; username := None;
     flags := 0; haveCred := false; haveCtx := false; qop := 0 |}.

Definition mock (ulong_max : Z) (fill_padding : bool) (found_qop : ULONG)
    (impersonation : SECURITY_STATUS) : Environment :=
  {| ULONG_MAX := ulong_max;
     INT_MAX := 2147483647;
     malloc_ok := fun _ _ => true;
     base64_encode := fun b => Some (mock_base64_encode b);
     base64_decode := mock_base64_decode;
     FormatMessageA := fun _ => None;
     GetLastError := fun _ => 0;
     MultiByteToWideChar :=
       fun b n => map (fun x => Z.of_N (Byte.to_N x)) (firstn (Z.to_nat n) b);
     UrlUnescapeW := fun s => (S_OK, percent_decode s);
     PyUnicode_AsWideChar := fun chars n => Some (firstn (Z.to_nat n) chars);
     PyCapsule_New_ok := fun _ => true;
     AcquireCredentialsHandleA := fun _ _ _ => (SEC_E_OK, 1);
     InitializeSecurityContextA :=
       fun _ _ x _ _ _ =>
         match x with
         | None => (SEC_I_CONTINUE_NEEDED, 7, bytes_of_string "T1")
         | Some _ => (SEC_E_OK, 7, [])
         end;
     QueryContextAttributes_Names := fun _ _ => (SEC_E_OK, "u@REALM");
     QueryContextAttributes_Sizes :=
       fun _ _ => (SEC_E_OK, {| cbSecurityTrailer := 16; cbBlockSize := 8 |});
     EncryptMessage :=
       fun _ _ _ trailer_capacity payload padding_capacity =>
         (SEC_E_OK,
          {| token_bytes := repeat x00%byte (Z.to_nat trailer_capacity);
             data_bytes := payload;
             padding_bytes := if fill_padding
                              then repeat x00%byte (Z.to_nat padding_capacity)
                              else [] |});
     DecryptMessage := fun _ _ stream => (SEC_E_OK, stream, found_qop);
     ImpersonateSecurityContext := fun _ _ => impersonation;
     RevertSecurityContext := fun _ _ => impersonation;
     GSS_MECH_OID_KRB5 := L "Kerberos";
     sizeof_sspi_client_state := 64;
     auth_sspi_client_init_W :=
       fun _ args =>
         (AUTH_GSS_COMPLETE,
          set_haveCred (set_flags zeroed_state (ci_flags args)) true, None) |}.

(** The mock of a Windows build: ULONG is 32 bits wide. *)
Definition mock32 : Environment := mock 4294967295 true 0 SEC_E_OK.

(** The same provider on a platform whose ULONG is 8 bits wide, where an
    over-long string can be written down. *)
Definition mock8 : Environment := mock 255 true 0 SEC_E_OK.

Definition w0 : World := {| trace := []; pyerr := None |}.

(** A context that was initialised and not stepped, and one that went
    through the two steps of the mock handshake. *)
Definition fresh_context : sspi_client_state :=
  snd (fst (auth_sspi_client_init mock32 "service@host" None
              (Z.lor ISC_REQ_MUTUAL_AUTH ISC_REQ_SEQUENCE_DETECT)
              (Some "u") None (Some "p") zeroed_state w0)).

Definition established_context : sspi_client_state :=
  let s1 := snd (fst (auth_sspi_client_step mock32 fresh_context "" w0)) in
  snd (fst (auth_sspi_client_step mock32 s1 "VDI=" w0)).

Definition established_server : Server.sspi_server_state :=
  {| Server.cred := 1; Server.ctx := 9; Server.response := None;
     Server.username := Some "u@REALM"; Server.targetname := None;
     Server.haveCred := true; Server.haveCtx := true |}.

(** ** What the provider answers during one wrap *)

(** The sizes [QueryContextAttributes] reports to a wrap started in
    world [w], and the three buffers [EncryptMessage] then returns. *)
Definition wrap_sizes (E : Environment) (state : sspi_client_state)
    (w : World) : SecPkgContext_Sizes :=
  snd (QueryContextAttributes_Sizes E (trace w) (ctx state)).

Definition wrap_calls (E : Environment) (state : sspi_client_state)
    (data : string) (user : option string) (w : World) : list Event :=
  let sizes := wrap_sizes E state w in
  [E_QueryContextAttributes (ctx state) SECPKG_ATTR_SIZES;
   E_malloc (cbSecurityTrailer sizes
             + Z.of_nat (List.length (plaintextMessage E data user))
             + cbBlockSize sizes)].

Definition wrap_answer (E : Environment) (state : sspi_client_state)
    (data : string) (user : option string) (w : World) : WrapBufs :=
  let sizes := wrap_sizes E state w in
  snd (EncryptMessage E (trace w ++ wrap_calls E state data user w)
         (ctx state) SECQOP_WRAP_NO_ENCRYPT (cbSecurityTrailer sizes)
         (SecBuffer_of E (plaintextMessage E data user))
         (cbBlockSize sizes)).

(** An [EncryptMessage] call asks for integrity only. *)
Definition asks_no_encrypt (e : Event) : Prop :=
  match e with
  | E_EncryptMessage _ fQOP _ _ _ => fQOP = SECQOP_WRAP_NO_ENCRYPT
  | _ => True
  end.

(** A non-empty run of wide characters with neither NUL nor colon. *)
Definition plain_part (s : list WCHAR) : Prop :=
  s <> [] /\ Forall (fun c => c <> 0 /\ c <> wchar_of_ascii ":") s.

(** A computation that leaves the calls to the provider as they were. *)
Definition quiet {A} (m : M A) : Prop :=
  forall w, provider_calls (trace (snd (m w))) = provider_calls (trace w).

(** ** The other client entry points of [winkerberos.c] *)



(** [sspi_client_step], from after the parsing of its arguments; the
    result and the context object are returned as for the entry points
    above. *)
Definition sspi_client_step (E : Environment) (pyctx : PyObject)
    (challenge : string) : M (option PyObject * PyObject) :=
  long <- _string_too_long E "challenge" (strlen challenge) ;;
  if long then ret (None, pyctx) else
  match pyctx with
  | PyCapsule (client_state_ptr state) =>
      '(result, state) <- auth_sspi_client_step E state challenge ;;
      let pyctx := PyCapsule (client_state_ptr state) in
      if is_error result then ret (None, pyctx)
      else ret (Some (PyInt_AUTH_GSS result), pyctx)
  | PyCapsule _ => ret (None, pyctx)
  | _ =>
      PyErr_Set (PyExc_TypeError "Expected a context object") ;;;
      ret (None, pyctx)
  end.



(** Do nothing. For compatibility with pykerberos only. *)
Definition sspi_client_clean : M (option PyObject) :=
  ret (Some (PyInt_AUTH_GSS AUTH_GSS_COMPLETE)).

(** The calls that give a handle back to the provider. *)
Definition releases_handle (e : Event) : bool :=
  match e with
  | E_DeleteSecurityContext _ | E_FreeCredentialsHandle _ => true
  | _ => false
  end.

(** The input of [InitializeSecurityContextA] in a step on [state]. *)
Definition step_answer (E : Environment) (state : sspi_client_state)
    (challenge : string) (w : World)
  : SECURITY_STATUS * CtxtHandle * list byte :=
  InitializeSecurityContextA E (trace w) (cred state)
    (if haveCtx state then Some (ctx state) else None) (spn state)
    (Z.lor ISC_REQ_ALLOCATE_MEMORY (flags state))
    (if haveCtx state
     then Some (SecBuffer_of E (base64_decode E challenge))
     else None).

Definition step_call (E : Environment) (state : sspi_client_state)
    (challenge : string) : Event :=
  E_InitializeSecurityContextA (cred state)
    (if haveCtx state then Some (ctx state) else None) (spn state)
    (Z.lor ISC_REQ_ALLOCATE_MEMORY (flags state))
    (if haveCtx state
     then Some (SecBuffer_of E (base64_decode E challenge))
     else None).

(** A run of colons. *)
Definition only_colons (s : list WCHAR) : Prop :=
  Forall (fun c => c = wchar_of_ascii ":") s.

(** * Properties *)

Example fresh_context_value :
  fresh_context =
  {| cred := 1; ctx := 0; spn := Some "service/host"; response := None;
     username := None; flags := 10; haveCred := true; haveCtx := false;
     qop := 0 |}.
Proof. reflexivity. Qed.

Example established_context_value :
  established_context =
  {| cred := 1; ctx := 7; spn := Some "service/host"; response := None;
     username := Some "u@REALM"; flags := 10; haveCred := true;
     haveCtx := true; qop := 0 |}.
Proof. reflexivity. Qed.

Example spn_from_rfc2078 :
  rfc2078_to_spn "service@host" = "service/host"
  /\ rfc2078_to_spn "service/host@REALM" = "service/host@REALM".
Proof. split; reflexivity. Qed.

Example wcstok_s_on_a_principal :
  wcstok_s (Some (L "alice:pa:ss")) (L ":") [] = (Some (L "alice"), L "pa:ss")
  /\ wcstok_s None (L ":") (L "pa:ss") = (Some (L "pa"), L "ss")
  /\ wcstok_s (Some (L ":pw")) (L ":") [] = (Some (L "pw"), [])
  /\ wcstok_s None (L ":") [] = (None, []).
Proof. repeat split; reflexivity. Qed.

(** The first step of the mock handshake: the provider asks to continue
    and its token T1 becomes the response, base64-encoded. *)
Example first_step_of_the_handshake :
  let '(r, s, w) := auth_sspi_client_step mock32 fresh_context "" w0 in
  r = AUTH_GSS_CONTINUE /\ response s = Some "VDE=" /\ haveCtx s = true
  /\ base64_decode mock32 "VDE=" = bytes_of_string "T1".
Proof. repeat split; reflexivity. Qed.

(** ** Shared lemmas *)

#[local] Arguments Z.lor : simpl never.
#[local] Arguments Z.modulo : simpl never.
#[local] Arguments Z.mul : simpl never.

Lemma response_cleared (s : sspi_client_state) :
  match response s with
  | Some _ => set_response s None
  | None => s
  end = set_response s None.
Proof. destruct s as [c x sp r u f hc hx q]; destruct r; reflexivity. Qed.

Lemma set_response_twice (s : sspi_client_state) (a b : option string) :
  set_response (set_response s a) b = set_response s b.
Proof. reflexivity. Qed.

Lemma to_ULONG_small (E : Environment) (n : Z) :
  0 <= n <= ULONG_MAX E -> to_ULONG E n = n.
Proof. intros H. unfold to_ULONG. apply Z.mod_small. lia. Qed.

Lemma SecBuffer_of_fits (E : Environment) (b : list byte) :
  Z.of_nat (List.length b) <= ULONG_MAX E -> SecBuffer_of E b = b.
Proof.
  intros H. unfold SecBuffer_of.
  rewrite to_ULONG_small by lia.
  rewrite Nat2Z.id. apply firstn_all.
Qed.

Ltac run_monad :=
  unfold bind, call, ret, PyErr_Set, PyErr_SetOpt, set_uninitialized_context,
    set_gsserror; simpl.

(** ** Destroying a client context *)

Lemma destroy_after_destroy (state : sspi_client_state) (w : World) :
  destroy_sspi_client_state (fst (destroy_sspi_client_state state w))
    (snd (destroy_sspi_client_state state w))
  = destroy_sspi_client_state state w.
Proof.
  destruct state as [c x sp r u f hc hx q].
  destruct hc, hx, sp, r, u; reflexivity.
Qed.

(** C7. [destroy_sspi_client_state] is idempotent.  The first call
    releases the context handle, if the state has one, and then the
    credential handle, if the state has one: these are the only calls it
    adds to the trace, in this order, and it sets no error.  However
    many further calls follow, the state and the world stay what the
    first call left, so each handle is released once and nothing is
    released twice. *)
Theorem destroy_is_idempotent (state : sspi_client_state) (w : World) :
  let '(s1, w1) := destroy_sspi_client_state state w in
  trace w1
  = trace w
    ++ (if haveCtx state then [E_DeleteSecurityContext (ctx state)] else [])
    ++ (if haveCred state then [E_FreeCredentialsHandle (cred state)] else [])
  /\ pyerr w1 = pyerr w
  /\ haveCtx s1 = false /\ haveCred s1 = false
  /\ spn s1 = None /\ response s1 = None /\ username s1 = None
  /\ forall n : nat,
       Nat.iter n (fun p => destroy_sspi_client_state (fst p) (snd p)) (s1, w1)
       = (s1, w1).
Proof.
  pose proof (destroy_after_destroy state w) as Hagain.
  destruct (destroy_sspi_client_state state w) as [s1 w1] eqn:Hrun.
  simpl in Hagain.
  assert (Hshape :
    trace w1
    = trace w
      ++ (if haveCtx state then [E_DeleteSecurityContext (ctx state)] else [])
      ++ (if haveCred state then [E_FreeCredentialsHandle (cred state)] else [])
    /\ pyerr w1 = pyerr w
    /\ haveCtx s1 = false /\ haveCred s1 = false
    /\ spn s1 = None /\ response s1 = None /\ username s1 = None).
  { destruct state as [c x sp r u f hc hx q].
    destruct hc, hx, sp, r, u;
      unfold destroy_sspi_client_state, bind, call, ret in Hrun;
      simpl in Hrun; inversion Hrun; subst; simpl;
      rewrite <- ?app_assoc, ?app_nil_r; repeat split; reflexivity. }
  destruct Hshape as (Ht & He & Hx & Hc & Hs & Hr & Hu).
  repeat split; try assumption.
  induction n as [|n IH]; simpl.
  - reflexivity.
  - rewrite IH. simpl. exact Hagain.
Qed.

(** ** The state guard of wrap and unwrap *)

(** C4. On a client context without a security context ([haveCtx] is
    0: no step has succeeded yet) both [auth_sspi_client_wrap] and
    [auth_sspi_client_unwrap] return [AUTH_GSS_ERROR] with the
    uninitialized-context error set, make no external call, and leave
    the credential handle, the context handle and their two flags as
    they were. *)
Theorem uninitialized_context_guard (E : Environment)
    (state : sspi_client_state) (data challenge : string)
    (user : option string) (w : World)
    (Hfresh : haveCtx state = false) :
  (let '(r, s', w') := auth_sspi_client_wrap E state data user w in
   r = AUTH_GSS_ERROR
   /\ pyerr w' = Some (KrbError uninitialized_context_message)
   /\ trace w' = trace w
   /\ cred s' = cred state /\ haveCred s' = haveCred state
   /\ ctx s' = ctx state /\ haveCtx s' = haveCtx state)
  /\
  (let '(r, s', w') := auth_sspi_client_unwrap E state challenge w in
   r = AUTH_GSS_ERROR
   /\ pyerr w' = Some (KrbError uninitialized_context_message)
   /\ trace w' = trace w
   /\ cred s' = cred state /\ haveCred s' = haveCred state
   /\ ctx s' = ctx state /\ haveCtx s' = haveCtx state).
Proof.
  unfold auth_sspi_client_wrap, auth_sspi_client_unwrap.
  rewrite response_cleared. simpl. rewrite Hfresh. simpl.
  run_monad. repeat split; solve [reflexivity | exact Hfresh].
Qed.

Lemma uninitialized_context_guard_witness :
  haveCtx fresh_context = false
  /\ fst (fst (auth_sspi_client_wrap mock32 fresh_context "" None w0))
     = AUTH_GSS_ERROR
  /\ fst (fst (auth_sspi_client_unwrap mock32 fresh_context "" w0))
     = AUTH_GSS_ERROR.
Proof.
  pose proof (uninitialized_context_guard mock32 fresh_context "" "" None w0
                eq_refl) as [Hwrap Hunwrap].
  split; [reflexivity | split].
  - destruct (auth_sspi_client_wrap mock32 fresh_context "" None w0)
      as [[r s'] w']. exact (proj1 Hwrap).
  - destruct (auth_sspi_client_unwrap mock32 fresh_context "" w0)
      as [[r s'] w']. exact (proj1 Hunwrap).
Defined.

(** ** The previous response *)

Lemma step_forgets_response (E : Environment) (state : sspi_client_state)
    (prev : option string) (challenge : string) (w : World) :
  auth_sspi_client_step E (set_response state prev) challenge w
  = auth_sspi_client_step E (set_response state None) challenge w.
Proof.
  unfold auth_sspi_client_step. rewrite !response_cleared. reflexivity.
Qed.

Lemma unwrap_forgets_response (E : Environment) (state : sspi_client_state)
    (prev : option string) (challenge : string) (w : World) :
  auth_sspi_client_unwrap E (set_response state prev) challenge w
  = auth_sspi_client_unwrap E (set_response state None) challenge w.
Proof.
  unfold auth_sspi_client_unwrap. rewrite !response_cleared. reflexivity.
Qed.

Lemma wrap_forgets_response (E : Environment) (state : sspi_client_state)
    (prev : option string) (data : string) (user : option string)
    (w : World) :
  auth_sspi_client_wrap E (set_response state prev) data user w
  = auth_sspi_client_wrap E (set_response state None) data user w.
Proof.
  unfold auth_sspi_client_wrap. rewrite !response_cleared. reflexivity.
Qed.

Lemma set_krberror_world (E : Environment) (code : Z) (msg : string)
    (w : World) :
  exists e, set_krberror E code msg w
            = (tt, {| trace := trace w; pyerr := Some e |}).
Proof.
  unfold set_krberror. destruct (FormatMessageA E (to_ULONG E code));
    eexists; reflexivity.
Qed.

Lemma unwrap_failure_leaves_no_response (E : Environment)
    (state : sspi_client_state) (challenge : string) (w : World) :
  let '(r, s', _) := auth_sspi_client_unwrap E state challenge w in
  match r with AUTH_GSS_ERROR => response s' = None | _ => True end.
Proof.
  unfold auth_sspi_client_unwrap. rewrite response_cleared.
  destruct (haveCtx state) eqn:Hx; simpl; rewrite Hx; simpl.
  - run_monad.
    destruct (DecryptMessage E (trace w) (ctx state)
                (SecBuffer_of E (base64_decode E challenge)))
      as [[status data] found].
    destruct (status =? SEC_E_OK).
    + exact I.
    + destruct (set_krberror_world E status "DecryptMessage"
                  {| trace := trace w ++
                       [E_DecryptMessage (ctx state)
                          (SecBuffer_of E (base64_decode E challenge))];
                     pyerr := pyerr w |}) as [e He].
      rewrite He. reflexivity.
  - run_monad. reflexivity.
Qed.

Lemma wrap_failure_leaves_no_response (E : Environment)
    (state : sspi_client_state) (data : string) (user : option string)
    (w : World) :
  let '(r, s', _) := auth_sspi_client_wrap E state data user w in
  match r with AUTH_GSS_ERROR => response s' = None | _ => True end.
Proof.
  unfold auth_sspi_client_wrap. rewrite response_cleared.
  destruct (haveCtx state) eqn:Hx; simpl; rewrite Hx; simpl;
    [|run_monad; reflexivity].
  run_monad.
  destruct (QueryContextAttributes_Sizes E (trace w) (ctx state))
    as [status sizes].
  destruct (status =? SEC_E_OK); simpl.
  2:{ match goal with |- context [set_krberror E ?c ?m ?w1] =>
        destruct (set_krberror_world E c m w1) as [e He]; rewrite He end.
      reflexivity. }
  destruct (malloc_ok E _ _); simpl; [|reflexivity].
  match goal with |- context [EncryptMessage E ?h ?x ?q ?t ?p ?b] =>
    destruct (EncryptMessage E h x q t p b) as [status' bufs] end.
  destruct (status' =? SEC_E_OK); simpl.
  2:{ match goal with |- context [set_krberror E ?c ?m ?w1] =>
        destruct (set_krberror_world E c m w1) as [e He]; rewrite He end.
      reflexivity. }
  destruct (malloc_ok E _ _); simpl; [exact I|reflexivity].
Qed.

Lemma set_response_same (s : sspi_client_state) :
  set_response s (response s) = s.
Proof. destruct s; reflexivity. Qed.

Lemma step_response_is_fresh (E : Environment) (state : sspi_client_state)
    (challenge : string) (w : World) :
  let out :=
    snd (InitializeSecurityContextA E (trace w) (cred state)
           (if haveCtx state then Some (ctx state) else None) (spn state)
           (Z.lor ISC_REQ_ALLOCATE_MEMORY (flags state))
           (if haveCtx state
            then Some (SecBuffer_of E (base64_decode E challenge))
            else None)) in
  let '(_, s', _) := auth_sspi_client_step E state challenge w in
  response s' = None \/ response s' = base64_encode E out.
Proof.
  unfold auth_sspi_client_step. rewrite response_cleared. simpl.
  run_monad.
  destruct (InitializeSecurityContextA E (trace w) (cred state)
              (if haveCtx state then Some (ctx state) else None) (spn state)
              (Z.lor ISC_REQ_ALLOCATE_MEMORY (flags state))
              (if haveCtx state
               then Some (SecBuffer_of E (base64_decode E challenge))
               else None)) as [[status newctx] out].
  simpl.
  destruct (status =? SEC_E_OK) eqn:Hok; simpl.
  - destruct out as [|b out]; simpl;
      (destruct (QueryContextAttributes_Names E _ newctx) as [status' name];
       destruct (status' =? SEC_E_OK); simpl;
       [ destruct (malloc_ok E _ _); simpl; auto
       | match goal with |- context [set_krberror E ?c ?m ?w1] =>
           destruct (set_krberror_world E c m w1) as [e He]; rewrite He end;
         simpl; auto ]).
  - destruct (status =? SEC_I_CONTINUE_NEEDED); simpl.
    + destruct out; simpl; auto.
    + match goal with |- context [set_krberror E ?c ?m ?w1] =>
        destruct (set_krberror_world E c m w1) as [e He]; rewrite He end.
      simpl; auto.
Qed.

(** C6. [auth_sspi_client_step], [auth_sspi_client_unwrap] and
    [auth_sspi_client_wrap] drop the previous response before anything
    else: a call started with any previous response [prev] gives the
    result, the state and the trace of external calls of the same call
    started with no response.  A failed wrap or unwrap leaves no
    response; after a step, failed or not, the response is absent or is
    the encoding of the token the provider returned in this very call.
    In particular the second of two consecutive steps runs as if the
    first had left no response. *)
Theorem previous_response_is_discarded (E : Environment)
    (state : sspi_client_state) (prev : option string)
    (challenge challenge2 data : string) (user : option string) (w : World) :
  auth_sspi_client_step E (set_response state prev) challenge w
  = auth_sspi_client_step E (set_response state None) challenge w
  /\ auth_sspi_client_unwrap E (set_response state prev) challenge w
     = auth_sspi_client_unwrap E (set_response state None) challenge w
  /\ auth_sspi_client_wrap E (set_response state prev) data user w
     = auth_sspi_client_wrap E (set_response state None) data user w
  /\ (let '(r, s', _) := auth_sspi_client_unwrap E state challenge w in
      match r with AUTH_GSS_ERROR => response s' = None | _ => True end)
  /\ (let '(r, s', _) := auth_sspi_client_wrap E state data user w in
      match r with AUTH_GSS_ERROR => response s' = None | _ => True end)
  /\ (let '(_, s', _) := auth_sspi_client_step E state challenge w in
      response s' = None
      \/ response s'
         = base64_encode E
             (snd (InitializeSecurityContextA E (trace w) (cred state)
                     (if haveCtx state then Some (ctx state) else None)
                     (spn state)
                     (Z.lor ISC_REQ_ALLOCATE_MEMORY (flags state))
                     (if haveCtx state
                      then Some (SecBuffer_of E (base64_decode E challenge))
                      else None))))
  /\ (let '(_, s1, w1) := auth_sspi_client_step E state challenge w in
      auth_sspi_client_step E s1 challenge2 w1
      = auth_sspi_client_step E (set_response s1 None) challenge2 w1).
Proof.
  split; [apply step_forgets_response|].
  split; [apply unwrap_forgets_response|].
  split; [apply wrap_forgets_response|].
  split; [apply unwrap_failure_leaves_no_response|].
  split; [apply wrap_failure_leaves_no_response|].
  split; [apply step_response_is_fresh|].
  destruct (auth_sspi_client_step E state challenge w) as [[r1 s1] w1].
  rewrite <- (set_response_same s1) at 1.
  apply step_forgets_response.
Qed.

(** ** Wrap framing *)

Lemma bytes_of_string_length (s : string) :
  List.length (bytes_of_string s) = String.length s.
Proof.
  unfold bytes_of_string, list_byte_of_string.
  induction s as [|a s IH]; simpl; [reflexivity | now rewrite IH].
Qed.

(** The run of a wrap that returns [AUTH_GSS_COMPLETE]. *)
Lemma wrap_complete_run (E : Environment) (state : sspi_client_state)
    (data : string) (user : option string) (w : World)
    (r : INT_RESULT) (s' : sspi_client_state) (w' : World) :
  auth_sspi_client_wrap E state data user w = (r, s', w') ->
  r = AUTH_GSS_COMPLETE ->
  let bufs := wrap_answer E state data user w in
  let outbufSize :=
    to_ULONG E (Z.of_nat (List.length (token_bytes bufs))
                + Z.of_nat (List.length (data_bytes bufs))
                + Z.of_nat (List.length (padding_bytes bufs))) in
  haveCtx state = true
  /\ trace w'
     = trace w ++ wrap_calls E state data user w
       ++ [E_EncryptMessage (ctx state) SECQOP_WRAP_NO_ENCRYPT
             (cbSecurityTrailer (wrap_sizes E state w))
             (SecBuffer_of E (plaintextMessage E data user))
             (cbBlockSize (wrap_sizes E state w));
           E_malloc outbufSize]
  /\ response s'
     = base64_encode E
         (firstn (Z.to_nat outbufSize)
            (token_bytes bufs ++ data_bytes bufs ++ padding_bytes bufs)).
Proof.
  intros Hrun Hok. subst r.
  unfold wrap_answer, wrap_calls, wrap_sizes.
  unfold auth_sspi_client_wrap in Hrun. rewrite response_cleared in Hrun.
  destruct (haveCtx state) eqn:Hx; simpl in Hrun; rewrite Hx in Hrun;
    simpl in Hrun; [|run_monad; discriminate].
  unfold bind, call, ret, PyErr_Set in Hrun. simpl in Hrun.
  destruct (QueryContextAttributes_Sizes E (trace w) (ctx state))
    as [status sizes]. simpl.
  destruct (status =? SEC_E_OK); simpl in Hrun.
  2:{ match type of Hrun with context [set_krberror E ?c ?m ?w1] =>
        destruct (set_krberror_world E c m w1) as [e He]; rewrite He in Hrun
      end. discriminate. }
  destruct (malloc_ok E _ _); simpl in Hrun; [|discriminate].
  match type of Hrun with context [EncryptMessage E ?h ?x ?q ?t ?p ?b] =>
    destruct (EncryptMessage E h x q t p b) as [status' bufs] eqn:Henc end.
  rewrite <- app_assoc in Henc. simpl in Henc. rewrite Henc. simpl.
  destruct (status' =? SEC_E_OK); simpl in Hrun.
  2:{ match type of Hrun with context [set_krberror E ?c ?m ?w1] =>
        destruct (set_krberror_world E c m w1) as [e He]; rewrite He in Hrun
      end. discriminate. }
  destruct (malloc_ok E _ _); simpl in Hrun; [|discriminate].
  inversion Hrun; subst. simpl.
  repeat split.
  rewrite <- !app_assoc. reflexivity.
Qed.

(** C3, as amended.  When [auth_sspi_client_wrap] returns
    [AUTH_GSS_COMPLETE] and the lengths involved fit a ULONG, the
    provider was asked to encrypt the plaintext (the decoded [data], or
    the four bytes 1,0,0,0 followed by the bytes of [user]) between a
    trailer of capacity [cbSecurityTrailer] and a padding of capacity
    [cbBlockSize], and the response is the encoding of the trailer, the
    payload and the padding the provider returned, concatenated in this
    order.  The length of that buffer is the sum of the three returned
    lengths; it is [cbSecurityTrailer + L + cbBlockSize] (16 + L + 8 for
    the sizes 16 and 8) when the provider returns a full trailer, a
    payload of the length L of the plaintext and a full padding. *)
Theorem wrap_framing (E : Environment) (state : sspi_client_state)
    (data : string) (user : option string) (w : World)
    (Hok : fst (fst (auth_sspi_client_wrap E state data user w))
           = AUTH_GSS_COMPLETE)
    (Hin : Z.of_nat (List.length (plaintextMessage E data user))
           <= ULONG_MAX E)
    (Hout : Z.of_nat (List.length
              (token_bytes (wrap_answer E state data user w)
               ++ data_bytes (wrap_answer E state data user w)
               ++ padding_bytes (wrap_answer E state data user w)))
            <= ULONG_MAX E) :
  let sizes := wrap_sizes E state w in
  let plaintext :=
    match user with
    | Some u => [x01; x00; x00; x00]%byte ++ bytes_of_string u
    | None => base64_decode E data
    end in
  let bufs := wrap_answer E state data user w in
  let outbuf := token_bytes bufs ++ data_bytes bufs ++ padding_bytes bufs in
  let '(_, s', w') := auth_sspi_client_wrap E state data user w in
  In (E_EncryptMessage (ctx state) SECQOP_WRAP_NO_ENCRYPT
        (cbSecurityTrailer sizes) plaintext (cbBlockSize sizes))
     (trace w')
  /\ response s' = base64_encode E outbuf
  /\ Z.of_nat (List.length outbuf)
     = Z.of_nat (List.length (token_bytes bufs))
       + Z.of_nat (List.length (data_bytes bufs))
       + Z.of_nat (List.length (padding_bytes bufs))
  /\ (Z.of_nat (List.length (token_bytes bufs)) = cbSecurityTrailer sizes ->
      List.length (data_bytes bufs) = List.length plaintext ->
      Z.of_nat (List.length (padding_bytes bufs)) = cbBlockSize sizes ->
      Z.of_nat (List.length outbuf)
      = cbSecurityTrailer sizes + Z.of_nat (List.length plaintext)
        + cbBlockSize sizes).
Proof.
  intros sizes plaintext bufs outbuf.
  assert (Hlen : Z.of_nat (List.length outbuf)
                 = Z.of_nat (List.length (token_bytes bufs))
                   + Z.of_nat (List.length (data_bytes bufs))
                   + Z.of_nat (List.length (padding_bytes bufs))).
  { unfold outbuf. rewrite !length_app. lia. }
  destruct (auth_sspi_client_wrap E state data user w) as [[r s'] w'] eqn:Hrun.
  simpl in Hok.
  destruct (wrap_complete_run E state data user w r s' w' Hrun Hok)
    as (_ & Htrace & Hresp).
  fold bufs in Hresp, Htrace. fold outbuf in Hresp.
  change (Z.of_nat (List.length outbuf) <= ULONG_MAX E) in Hout.
  change plaintext with (plaintextMessage E data user).
  rewrite <- Hlen in Hresp, Htrace.
  rewrite to_ULONG_small in Hresp by lia.
  rewrite Nat2Z.id, firstn_all in Hresp.
  rewrite SecBuffer_of_fits in Htrace by exact Hin.
  split.
  { rewrite Htrace. fold sizes. apply in_or_app. right.
    apply in_or_app. right. left. reflexivity. }
  split; [exact Hresp|].
  split; [exact Hlen|].
  intros Ht Hd Hp. rewrite Hlen, Ht, Hd, Hp. reflexivity.
Qed.

Lemma wrap_framing_witness :
  fst (fst (auth_sspi_client_wrap mock32 established_context "YWJj" None w0))
  = AUTH_GSS_COMPLETE
  /\ response
       (snd (fst (auth_sspi_client_wrap mock32 established_context "YWJj"
                    None w0)))
     = base64_encode mock32
         (repeat x00%byte 16 ++ bytes_of_string "abc" ++ repeat x00%byte 8).
Proof.
  assert (Hok : fst (fst (auth_sspi_client_wrap mock32 established_context
                            "YWJj" None w0)) = AUTH_GSS_COMPLETE)
    by reflexivity.
  assert (Hin : Z.of_nat (List.length (plaintextMessage mock32 "YWJj" None))
                <= ULONG_MAX mock32)
    by (vm_compute; discriminate).
  assert (Hout : Z.of_nat (List.length
              (token_bytes (wrap_answer mock32 established_context "YWJj"
                              None w0)
               ++ data_bytes (wrap_answer mock32 established_context "YWJj"
                                None w0)
               ++ padding_bytes (wrap_answer mock32 established_context "YWJj"
                                   None w0)))
            <= ULONG_MAX mock32)
    by (vm_compute; discriminate).
  pose proof (wrap_framing mock32 established_context "YWJj" None w0
                Hok Hin Hout) as H.
  cbv zeta in H.
  destruct (auth_sspi_client_wrap mock32 established_context "YWJj" None w0)
    as [[r s'] w'].
  destruct H as (_ & Hresp & _).
  split; [exact Hok|]. simpl. rewrite Hresp. reflexivity.
Defined.

(** C3, as stated, fails: with the reported sizes 16 and 8 and a payload
    of 3 bytes, a provider that returns the padding buffer empty makes
    the wrapped buffer 19 bytes long, not 16 + 3 + 8. *)
Lemma wrap_length_counterexample :
  let E := mock 4294967295 false 0 SEC_E_OK in
  let '(r, s', _) := auth_sspi_client_wrap E established_context "YWJj" None w0 in
  r = AUTH_GSS_COMPLETE
  /\ wrap_sizes E established_context w0
     = {| cbSecurityTrailer := 16; cbBlockSize := 8 |}
  /\ List.length (plaintextMessage E "YWJj" None) = 3%nat
  /\ response s'
     = base64_encode E (repeat x00%byte 16 ++ bytes_of_string "abc")
  /\ Z.of_nat (List.length (repeat x00%byte 16 ++ bytes_of_string "abc"))
     <> 16 + 3 + 8.
Proof.
  vm_compute. repeat split; try reflexivity. discriminate.
Qed.

(** Why the lengths have to fit: on a platform with an 8-bit ULONG a
    plaintext of 260 bytes reaches the provider cut to its first 4. *)
Example wrap_truncates_oversized_plaintext :
  let user := string_of_list_ascii (repeat "a"%char 256) in
  In (E_EncryptMessage 7 SECQOP_WRAP_NO_ENCRYPT 16
        [x01; x00; x00; x00]%byte 8)
     (trace (snd (auth_sspi_client_wrap mock8 established_context ""
                    (Some user) w0))).
Proof. vm_compute. right. right. left. reflexivity. Qed.

(** ** The quality of protection of a wrap *)

Lemma string_too_long_world (E : Environment) (key : string) (n : Z)
    (w : World) :
  trace (snd (_string_too_long E key n w)) = trace w
  /\ (fst (_string_too_long E key n w) = false ->
      snd (_string_too_long E key n w) = w).
Proof.
  unfold _string_too_long. destruct (n >? ULONG_MAX E); run_monad.
  - split; [reflexivity | discriminate].
  - split; reflexivity.
Qed.

Lemma wrap_asks_no_encrypt (E : Environment) (state : sspi_client_state)
    (data : string) (user : option string) (w : World) :
  exists added,
    trace (snd (auth_sspi_client_wrap E state data user w)) = trace w ++ added
    /\ Forall asks_no_encrypt added.
Proof.
  unfold auth_sspi_client_wrap. rewrite response_cleared.
  destruct (haveCtx state) eqn:Hx; simpl; rewrite Hx; simpl.
  2:{ run_monad. exists []. rewrite app_nil_r. split; constructor. }
  run_monad.
  destruct (QueryContextAttributes_Sizes E (trace w) (ctx state))
    as [status sizes].
  destruct (status =? SEC_E_OK); simpl.
  2:{ match goal with |- context [set_krberror E ?c ?m ?w1] =>
        destruct (set_krberror_world E c m w1) as [e He]; rewrite He end.
      simpl. eexists. split; [reflexivity|]. repeat constructor. }
  destruct (malloc_ok E _ _); simpl.
  2:{ eexists. rewrite <- app_assoc. split; [reflexivity|].
      repeat constructor. }
  match goal with |- context [EncryptMessage E ?h ?x ?q ?t ?p ?b] =>
    destruct (EncryptMessage E h x q t p b) as [status' bufs] end.
  destruct (status' =? SEC_E_OK); simpl.
  2:{ match goal with |- context [set_krberror E ?c ?m ?w1] =>
        destruct (set_krberror_world E c m w1) as [e He]; rewrite He end.
      simpl. eexists. rewrite <- !app_assoc. split; [reflexivity|].
      repeat constructor. }
  destruct (malloc_ok E _ _); simpl;
    (eexists; rewrite <- !app_assoc; split; [reflexivity|];
     repeat constructor).
Qed.

(** C1 fails on the code.  The [protect] argument of [sspi_client_wrap]
    never reaches the provider: the call behaves for every [protect] as
    it does for 0, and every [EncryptMessage] call it makes passes
    [SECQOP_WRAP_NO_ENCRYPT], integrity only.  On an established context
    with [protect = 1] the provider is called once, with that quality of
    protection and not with the one that asks for confidentiality. *)
Theorem wrap_ignores_protect (E : Environment) (pyctx : PyObject)
    (data : string) (user : option string) (protect : Z) (w : World) :
  sspi_client_wrap E pyctx data user protect w
  = sspi_client_wrap E pyctx data user 0 w
  /\ (exists added,
        trace (snd (sspi_client_wrap E pyctx data user protect w))
        = trace w ++ added
        /\ Forall asks_no_encrypt added)
  /\ trace (snd (sspi_client_wrap mock32
                   (PyCapsule (client_state_ptr established_context))
                   "" (Some "u") 1 w0))
     = [E_QueryContextAttributes 7 SECPKG_ATTR_SIZES;
        E_malloc 29;
        E_EncryptMessage 7 SECQOP_WRAP_NO_ENCRYPT 16
          ([x01; x00; x00; x00]%byte ++ bytes_of_string "u") 8;
        E_malloc 29]
  /\ SECQOP_WRAP_NO_ENCRYPT <> SECQOP_CONFIDENTIALITY.
Proof.
  split; [reflexivity|].
  split.
  2:{ split; [reflexivity | discriminate]. }
  unfold sspi_client_wrap. unfold bind at 1.
  pose proof (string_too_long_world E "data" (strlen data) w) as [Ht1 Hw1].
  destruct (_string_too_long E "data" (strlen data) w) as [long1 w1].
  simpl in Ht1, Hw1.
  destruct long1.
  { exists []. rewrite app_nil_r. split; [exact Ht1 | constructor]. }
  specialize (Hw1 eq_refl). subst w1. unfold bind at 1.
  match goal with |- context [_string_too_long E "user" ?n w] =>
    pose proof (string_too_long_world E "user" n w) as [Ht2 Hw2];
    destruct (_string_too_long E "user" n w) as [long2 w2] end.
  simpl in Ht2, Hw2.
  destruct long2.
  { exists []. rewrite app_nil_r. split; [exact Ht2 | constructor]. }
  specialize (Hw2 eq_refl). subst w2.
  destruct pyctx as [| | | | | |p|];
    try (run_monad; exists []; rewrite app_nil_r; split; [reflexivity|constructor]).
  destruct p as [|state| |];
    try (run_monad; exists []; rewrite app_nil_r; split; [reflexivity|constructor]).
  unfold bind.
  destruct (wrap_asks_no_encrypt E state data user w) as (added & Ht & Hq).
  destruct (auth_sspi_client_wrap E state data user w) as [[r s'] w'].
  simpl in Ht. exists added.
  destruct (is_error r); simpl; split; assumption.
Qed.

(** ** The quality of protection found by unwrap *)

Lemma unwrap_keeps_qop (E : Environment) (state : sspi_client_state)
    (challenge : string) (w : World) :
  qop (snd (fst (auth_sspi_client_unwrap E state challenge w))) = qop state.
Proof.
  unfold auth_sspi_client_unwrap. rewrite response_cleared.
  destruct (haveCtx state) eqn:Hx; simpl; rewrite Hx; simpl;
    [|run_monad; reflexivity].
  run_monad.
  match goal with |- context [DecryptMessage E ?h ?x ?s] =>
    destruct (DecryptMessage E h x s) as [[status data] found] end.
  destruct (status =? SEC_E_OK); simpl.
  - destruct data; reflexivity.
  - match goal with |- context [set_krberror E ?c ?m ?w1] =>
      destruct (set_krberror_world E c m w1) as [e He]; rewrite He end.
    reflexivity.
Qed.

(** C5 fails on the code.  [auth_sspi_client_unwrap] passes NULL for the
    quality of protection of [DecryptMessage] and never writes the [qop]
    field: after an unwrap the field, and with it the answer of
    [sspi_client_response_conf], is what it was before, whatever the
    provider found.  On a context whose [qop] field holds 0, after a
    successful unwrap of a message that the provider found to be
    integrity-only ([SECQOP_WRAP_NO_ENCRYPT]), the query still answers 1,
    confidentiality. *)
Theorem unwrap_does_not_record_qop (E : Environment)
    (state : sspi_client_state) (challenge : string) (w : World) :
  (let '(_, s', _) := auth_sspi_client_unwrap E state challenge w in
   qop s' = qop state)
  /\ (let '(_, pyctx', w') :=
        sspi_client_unwrap E (PyCapsule (client_state_ptr state)) challenge w in
      fst (sspi_client_response_conf pyctx' w')
      = fst (sspi_client_response_conf
               (PyCapsule (client_state_ptr state)) w))
  /\ (let E1 := mock 4294967295 true SECQOP_WRAP_NO_ENCRYPT SEC_E_OK in
      let pyctx := PyCapsule (client_state_ptr established_context) in
      let '(result, pyctx', w') := sspi_client_unwrap E1 pyctx "YWJj" w0 in
      result = Some (PyInt_AUTH_GSS AUTH_GSS_COMPLETE)
      /\ trace w' = [E_DecryptMessage 7 (bytes_of_string "abc")]
      /\ snd (DecryptMessage E1 [] 7 (bytes_of_string "abc"))
         = SECQOP_WRAP_NO_ENCRYPT
      /\ fst (sspi_client_response_conf pyctx' w') = Some (PyInt 1)).
Proof.
  pose proof (unwrap_keeps_qop E state challenge w) as Hq.
  split; [|split].
  - destruct (auth_sspi_client_unwrap E state challenge w) as [[r s'] w'].
    exact Hq.
  - unfold sspi_client_unwrap. unfold bind at 1.
    destruct (_string_too_long E "challenge" (strlen challenge) w)
      as [long w1] eqn:Hlong.
    pose proof (string_too_long_world E "challenge" (strlen challenge) w)
      as [_ Hw1].
    rewrite Hlong in Hw1. simpl in Hw1.
    destruct long; [reflexivity|].
    specialize (Hw1 eq_refl). subst w1. unfold bind.
    destruct (auth_sspi_client_unwrap E state challenge w) as [[r s'] w'].
    simpl in Hq. destruct (is_error r); run_monad; rewrite Hq; reflexivity.
  - vm_compute. repeat split; reflexivity.
Qed.

(** ** Client init: the checks on the arguments *)

(** C10. With negative [gssflags], [sspi_client_init] returns NULL with
    the ValueError "gss_flags must be >= 0".  The trace of external
    calls is unchanged: no string has been converted (a conversion
    allocates), no state has been allocated, no capsule created and the
    provider has not been called. *)
Theorem negative_gssflags_rejected (E : Environment)
    (serviceobj principalobj : PyObject) (flags : Z)
    (userobj domainobj passwordobj mechoidobj : PyObject) (w : World)
    (Hneg : flags < 0) :
  sspi_client_init E serviceobj principalobj flags userobj domainobj
    passwordobj mechoidobj w
  = (None, {| trace := trace w;
              pyerr := Some (PyExc_ValueError "gss_flags must be >= 0") |}).
Proof.
  unfold sspi_client_init.
  destruct (flags <? 0) eqn:Hlt.
  - reflexivity.
  - apply Z.ltb_ge in Hlt. lia.
Qed.

Lemma negative_gssflags_rejected_witness :
  -1 < 0
  /\ sspi_client_init mock32 (PyUnicode (L "service@host")) Py_None (-1)
       (PyUnicode (L "u")) Py_None (PyUnicode (L "p")) Py_None w0
     = (None, {| trace := [];
                 pyerr := Some (PyExc_ValueError "gss_flags must be >= 0") |}).
Proof.
  split; [lia|].
  apply (negative_gssflags_rejected mock32 (PyUnicode (L "service@host"))
           Py_None (-1) (PyUnicode (L "u")) Py_None (PyUnicode (L "p"))
           Py_None w0).
  lia.
Defined.

Lemma quiet_ret {A} (a : A) : quiet (ret a).
Proof. intros w. reflexivity. Qed.

Lemma quiet_bind {A B} (m : M A) (k : A -> M B) :
  quiet m -> (forall a, quiet (k a)) -> quiet (bind m k).
Proof.
  intros Hm Hk w. unfold bind.
  specialize (Hm w). destruct (m w) as [a w1]. simpl in Hm.
  rewrite Hk. exact Hm.
Qed.

Lemma quiet_PyErr_Set (e : PyErr) : quiet (PyErr_Set e).
Proof. intros w. reflexivity. Qed.

Lemma quiet_malloc (E : Environment) (size : Z) : quiet (malloc E size).
Proof.
  intros w. unfold malloc, call, provider_calls. simpl.
  rewrite filter_app. simpl. apply app_nil_r.
Qed.

Lemma quiet_fail {A} (e : PyErr) (a : A) : quiet (PyErr_Set e ;;; ret a).
Proof.
  apply quiet_bind; [apply quiet_PyErr_Set | intros; apply quiet_ret].
Qed.

Lemma quiet_py_unicode_to_wchar (E : Environment) (chars : list WCHAR) :
  quiet (_py_unicode_to_wchar E chars).
Proof.
  unfold _py_unicode_to_wchar.
  apply quiet_bind; [apply quiet_malloc|]. intros ok.
  destruct ok; simpl; [|apply quiet_fail].
  destruct (PyUnicode_AsWideChar E chars _); [|apply quiet_fail].
  destruct (negb _); [apply quiet_fail | apply quiet_ret].
Qed.

Lemma quiet_py_buffer_to_wchar (E : Environment) (obj : PyObject) :
  quiet (_py_buffer_to_wchar E obj).
Proof.
  unfold _py_buffer_to_wchar.
  destruct obj; try apply quiet_fail.
  destruct (negb (c_contiguous view)); [apply quiet_fail|].
  destruct (buf view); [|apply quiet_fail].
  destruct (len view <? 0); [apply quiet_fail|].
  destruct (negb (itemsize view =? 1)); [apply quiet_fail|].
  destruct (len view >? INT_MAX E); [apply quiet_fail|].
  apply quiet_bind; [apply quiet_malloc|]. intros ok.
  destruct ok; simpl; [|apply quiet_fail].
  destruct (_ =? 0); [|apply quiet_ret].
  apply quiet_bind; [|intros; apply quiet_ret].
  intros w. reflexivity.
Qed.

Lemma quiet_BufferObject_AsWCHAR (E : Environment) (arg : PyObject) :
  quiet (BufferObject_AsWCHAR E arg).
Proof.
  unfold BufferObject_AsWCHAR.
  destruct arg;
    solve [ apply quiet_ret | apply quiet_py_unicode_to_wchar
          | apply (quiet_py_buffer_to_wchar E) ].
Qed.

Lemma quiet_StringObject_AsWCHAR (E : Environment) (arg : PyObject)
    (argnum : Z) (allow_none : bool) :
  quiet (StringObject_AsWCHAR E arg argnum allow_none).
Proof.
  unfold StringObject_AsWCHAR.
  destruct arg, allow_none;
    solve [ apply quiet_ret | apply quiet_py_unicode_to_wchar
          | apply quiet_fail ].
Qed.

Lemma quiet_convert_arguments (E : Environment)
    (serviceobj principalobj userobj domainobj passwordobj : PyObject) :
  quiet (convert_arguments E serviceobj principalobj userobj domainobj
           passwordobj).
Proof.
  unfold convert_arguments.
  apply quiet_bind; [apply quiet_StringObject_AsWCHAR|].
  intros [[service slen]|]; [|apply quiet_ret].
  apply quiet_bind; [apply quiet_BufferObject_AsWCHAR|].
  intros [[principal len]|]; [|apply quiet_ret].
  apply quiet_bind; [apply quiet_StringObject_AsWCHAR|].
  intros [[user ulen]|]; [|apply quiet_ret].
  apply quiet_bind; [apply quiet_StringObject_AsWCHAR|].
  intros [[domain dlen]|]; [|apply quiet_ret].
  apply quiet_bind; [apply quiet_BufferObject_AsWCHAR|].
  intros [[password plen]|]; apply quiet_ret.
Qed.

(** The name [check_lengths] reports: the first of the three lengths
    that is too large. *)
Lemma check_lengths_long (E : Environment) (id : identity) (w : World) :
  id_ulen id > ULONG_MAX E \/ id_dlen id > ULONG_MAX E
  \/ id_plen id > ULONG_MAX E ->
  check_lengths E id w
  = (true,
     {| trace := trace w;
        pyerr := Some (PyExc_ValueError
                   ((if id_ulen id >? ULONG_MAX E then "user"
                     else if id_dlen id >? ULONG_MAX E then "domain"
                     else "password") ++ " too large")%string) |}).
Proof.
  intros Hlong. unfold check_lengths, _string_too_long.
  destruct (id_ulen id >? ULONG_MAX E) eqn:Hu; run_monad; [reflexivity|].
  destruct (id_dlen id >? ULONG_MAX E) eqn:Hd; run_monad; [reflexivity|].
  destruct (id_plen id >? ULONG_MAX E) eqn:Hp; run_monad; [reflexivity|].
  rewrite Z.gtb_ltb in Hu, Hd, Hp.
  apply Z.ltb_ge in Hu, Hd, Hp. lia.
Qed.

(** The lengths [convert_arguments] reports for text arguments. *)
Lemma py_unicode_to_wchar_length (E : Environment) (chars : list WCHAR)
    (w w1 : World) (out : option (list WCHAR)) (n : Z) :
  _py_unicode_to_wchar E chars w = (Some (out, n), w1) ->
  n = Z.of_nat (List.length chars).
Proof.
  unfold _py_unicode_to_wchar. run_monad.
  destruct (malloc_ok E _ _); simpl; [|discriminate].
  destruct (PyUnicode_AsWideChar E chars _); [|discriminate].
  destruct (negb _); [discriminate|].
  intros H. inversion H. reflexivity.
Qed.

Lemma convert_arguments_lengths (E : Environment)
    (serviceobj principalobj userobj domainobj passwordobj : PyObject)
    (w w1 : World) (service principal : option (list WCHAR))
    (id : identity) :
  convert_arguments E serviceobj principalobj userobj domainobj passwordobj w
  = (Some (service, principal, id), w1) ->
  (forall chars, userobj = PyUnicode chars ->
                 id_ulen id = Z.of_nat (List.length chars))
  /\ (forall chars, domainobj = PyUnicode chars ->
                    id_dlen id = Z.of_nat (List.length chars))
  /\ (forall chars, passwordobj = PyUnicode chars ->
                    id_plen id = Z.of_nat (List.length chars)).
Proof.
  unfold convert_arguments. unfold bind at 1.
  destruct (StringObject_AsWCHAR E serviceobj 1 false w)
    as [[[sv sl]|] wa]; [|discriminate].
  unfold bind at 1.
  destruct (BufferObject_AsWCHAR E principalobj wa)
    as [[[pr pl]|] wb]; [|discriminate].
  unfold bind at 1.
  destruct (StringObject_AsWCHAR E userobj 4 true wb)
    as [[[us ul]|] wc] eqn:Hu; [|discriminate].
  unfold bind at 1.
  destruct (StringObject_AsWCHAR E domainobj 5 true wc)
    as [[[dm dl]|] wd] eqn:Hd; [|discriminate].
  unfold bind at 1.
  destruct (BufferObject_AsWCHAR E passwordobj wd)
    as [[[pw pwl]|] we] eqn:Hp; [|discriminate].
  unfold ret. intros H. inversion H; subst. simpl.
  repeat split; intros chars ->; simpl in *;
    eapply py_unicode_to_wchar_length; eassumption.
Qed.

(** C8, as amended.  When [gssflags] is not negative and the five
    arguments convert, and the converted user, domain or password is
    longer than [ULONG_MAX], [sspi_client_init] returns NULL with the
    ValueError "<field> too large" that names the first of user, domain
    and password that is too long; nothing follows the conversions, so
    no call has reached the provider.  For text arguments the length
    checked is the number of characters of the string. *)
Theorem oversized_identity_rejected (E : Environment)
    (serviceobj principalobj : PyObject) (flags : Z)
    (userobj domainobj passwordobj mechoidobj : PyObject) (w w1 : World)
    (service principal : option (list WCHAR)) (id : identity)
    (Hflags : 0 <= flags)
    (Hconv : convert_arguments E serviceobj principalobj userobj domainobj
               passwordobj w = (Some (service, principal, id), w1))
    (Hlong : id_ulen id > ULONG_MAX E \/ id_dlen id > ULONG_MAX E
             \/ id_plen id > ULONG_MAX E) :
  sspi_client_init E serviceobj principalobj flags userobj domainobj
    passwordobj mechoidobj w
  = (None,
     {| trace := trace w1;
        pyerr := Some (PyExc_ValueError
                   ((if id_ulen id >? ULONG_MAX E then "user"
                     else if id_dlen id >? ULONG_MAX E then "domain"
                     else "password") ++ " too large")%string) |})
  /\ provider_calls (trace w1) = provider_calls (trace w)
  /\ (forall chars, userobj = PyUnicode chars ->
                    id_ulen id = Z.of_nat (List.length chars))
  /\ (forall chars, domainobj = PyUnicode chars ->
                    id_dlen id = Z.of_nat (List.length chars))
  /\ (forall chars, passwordobj = PyUnicode chars ->
                    id_plen id = Z.of_nat (List.length chars)).
Proof.
  split; [|split].
  - unfold sspi_client_init.
    destruct (flags <? 0) eqn:Hlt; [apply Z.ltb_lt in Hlt; lia|].
    unfold bind at 1. rewrite Hconv.
    unfold bind at 1. rewrite (check_lengths_long E id w1 Hlong).
    reflexivity.
  - pose proof (quiet_convert_arguments E serviceobj principalobj userobj
                  domainobj passwordobj w) as Hq.
    rewrite Hconv in Hq. exact Hq.
  - eapply convert_arguments_lengths. exact Hconv.
Qed.

Lemma oversized_identity_rejected_witness :
  0 <= 0
  /\ Z.of_nat (List.length (repeat 97 300)) > ULONG_MAX mock8
  /\ sspi_client_init mock8 (PyUnicode (L "service@host")) Py_None 0
       (PyUnicode (repeat 97 300)) Py_None Py_None Py_None w0
     = (None,
        {| trace := [E_malloc 26; E_malloc 602];
           pyerr := Some (PyExc_ValueError "user too large") |}).
Proof.
  split; [lia|]. split; [vm_compute; reflexivity|].
  pose (id := {| id_user := Some (repeat 97 300); id_ulen := 300;
                 id_domain := None; id_dlen := 0;
                 id_password := None; id_plen := 0 |}).
  assert (Hconv :
    convert_arguments mock8 (PyUnicode (L "service@host")) Py_None
      (PyUnicode (repeat 97 300)) Py_None Py_None w0
    = (Some (Some (L "service@host"), None, id),
       {| trace := [E_malloc 26; E_malloc 602]; pyerr := None |}))
    by (vm_compute; reflexivity).
  assert (Hlong : id_ulen id > ULONG_MAX mock8
                  \/ id_dlen id > ULONG_MAX mock8
                  \/ id_plen id > ULONG_MAX mock8)
    by (left; vm_compute; reflexivity).
  exact (proj1 (oversized_identity_rejected mock8
                  (PyUnicode (L "service@host")) Py_None 0
                  (PyUnicode (repeat 97 300)) Py_None Py_None Py_None w0 _
                  _ _ id (Z.le_refl 0) Hconv Hlong)).
Defined.

(** C8, as stated, fails: with an over-long user, a negative [gssflags]
    makes init fail with the error about the flags, and a service that
    is not a string with a TypeError; neither names the user. *)
Lemma oversized_user_counterexample :
  Z.of_nat (List.length (repeat 97 300)) > ULONG_MAX mock8
  /\ sspi_client_init mock8 (PyUnicode (L "service@host")) Py_None (-1)
       (PyUnicode (repeat 97 300)) Py_None Py_None Py_None w0
     = (None,
        {| trace := [];
           pyerr := Some (PyExc_ValueError "gss_flags must be >= 0") |})
  /\ sspi_client_init mock8 (PyInt 5) Py_None 0
       (PyUnicode (repeat 97 300)) Py_None Py_None Py_None w0
     = (None,
        {| trace := [];
           pyerr := Some (PyExc_TypeError
                            "argument 1 must be str, not int") |}).
Proof.
  split; [vm_compute; reflexivity|]. split; vm_compute; reflexivity.
Qed.

(** ** Client init: the identity taken from the principal *)

Lemma wchar_in_colon (c : WCHAR) :
  wchar_in c (L ":") = (c =? wchar_of_ascii ":").
Proof. unfold wchar_in, L. simpl. apply orb_false_r. Qed.

Lemma wcs_plain (t rest : list WCHAR) :
  Forall (fun c => c <> 0 /\ c <> wchar_of_ascii ":") t ->
  wcs (t ++ rest) = t ++ wcs rest.
Proof.
  induction 1 as [|c t [Hc _] _ IH]; simpl; [reflexivity|].
  destruct (c =? 0) eqn:Hz; [apply Z.eqb_eq in Hz; contradiction|].
  now rewrite IH.
Qed.

Lemma wcschr_plain (t rest : list WCHAR) :
  Forall (fun c => c <> 0 /\ c <> wchar_of_ascii ":") t ->
  wcschr (t ++ wchar_of_ascii ":" :: rest) (wchar_of_ascii ":") = true.
Proof.
  intros Ht. unfold wcschr. rewrite (wcs_plain _ _ Ht).
  unfold wchar_in. rewrite existsb_app. apply orb_true_iff. right.
  reflexivity.
Qed.

Lemma split_token_plain (t rest : list WCHAR) :
  Forall (fun c => c <> 0 /\ c <> wchar_of_ascii ":") t ->
  split_token (L ":") (t ++ wchar_of_ascii ":" :: rest) = (t, rest)
  /\ split_token (L ":") t = (t, []).
Proof.
  induction 1 as [|c t [_ Hc] _ [IH1 IH2]].
  - split; reflexivity.
  - simpl app. cbn [split_token]. rewrite wchar_in_colon.
    destruct (c =? wchar_of_ascii ":") eqn:Hz;
      [apply Z.eqb_eq in Hz; contradiction|].
    rewrite IH1, IH2. split; reflexivity.
Qed.

Lemma wcstok_s_plain (t rest : list WCHAR) :
  plain_part t ->
  wcstok_s None (L ":") (t ++ wchar_of_ascii ":" :: rest) = (Some t, rest)
  /\ wcstok_s None (L ":") t = (Some t, []).
Proof.
  intros [Hne Ht]. destruct (split_token_plain t rest Ht) as [H1 H2].
  destruct t as [|c t]; [contradiction|].
  inversion Ht as [|? ? [_ Hc] _]; subst.
  unfold wcstok_s. simpl app. cbn [skip_delimiters].
  rewrite wchar_in_colon.
  destruct (c =? wchar_of_ascii ":") eqn:Hz;
    [apply Z.eqb_eq in Hz; contradiction|].
  simpl app in H1. rewrite H1, H2. split; reflexivity.
Qed.

Lemma wcslen_plain (t : list WCHAR) :
  Forall (fun c => c <> 0 /\ c <> wchar_of_ascii ":") t ->
  wcs t = t /\ wcslen t = Z.of_nat (List.length t).
Proof.
  intros Ht. pose proof (wcs_plain t [] Ht) as H.
  rewrite !app_nil_r in H. unfold wcslen. rewrite H. split; reflexivity.
Qed.

(** C2, as amended.  Without an explicit user, a principal that reads
    [u:p], or [u:p:...], with [u] and [p] non-empty and free of colons,
    gives the user [u] and the password [p], the text between the first
    colon and the next one (or the end), each URL-unescaped; the domain
    and the password supplied before are dropped.  The two copies have
    to be allocated and the two unescapings have to succeed. *)
Theorem principal_is_split_at_colons (E : Environment)
    (u p rest : list WCHAR) (id : identity) (w : World)
    (Hnouser : id_user id = None)
    (Hu : plain_part u) (Hp : plain_part p)
    (Hrest : rest = [] \/ exists r, rest = wchar_of_ascii ":" :: r)
    (Halloc_u : malloc_ok E (trace w) (sizeof_WCHAR * (wcslen u + 1)) = true)
    (Halloc_p : malloc_ok E
                  (trace w ++ [E_malloc (sizeof_WCHAR * (wcslen u + 1))])
                  (sizeof_WCHAR * (wcslen p + 1)) = true)
    (Hunescape_u : fst (UrlUnescapeW E u) = S_OK)
    (Hunescape_p : fst (UrlUnescapeW E p) = S_OK) :
  let user := snd (UrlUnescapeW E u) in
  let password := snd (UrlUnescapeW E p) in
  resolve_identity E (Some (u ++ wchar_of_ascii ":" :: p ++ rest)) id w
  = (Some {| id_user := Some user; id_ulen := wcslen user;
             id_domain := None; id_dlen := id_dlen id;
             id_password := Some password; id_plen := wcslen password |},
     {| trace := trace w ++ [E_malloc (sizeof_WCHAR * (wcslen u + 1));
                             E_malloc (sizeof_WCHAR * (wcslen p + 1))];
        pyerr := pyerr w |}).
Proof.
  intros user password.
  destruct Hu as [Hune Hu]. destruct Hp as [Hpne Hp].
  assert (Hwcs : wcs (u ++ wchar_of_ascii ":" :: p ++ rest)
                 = u ++ wchar_of_ascii ":" :: p ++ wcs rest).
  { rewrite (wcs_plain _ _ Hu). cbn [wcs].
    replace (wchar_of_ascii ":" =? 0) with false by reflexivity.
    now rewrite (wcs_plain _ _ Hp). }
  assert (Htok2 : exists next,
            wcstok_s None (L ":") (p ++ wcs rest) = (Some p, next)).
  { destruct Hrest as [-> | [r ->]].
    - simpl wcs. rewrite app_nil_r. eexists.
      apply (wcstok_s_plain p [] (conj Hpne Hp)).
    - cbn [wcs]. replace (wchar_of_ascii ":" =? 0) with false by reflexivity.
      eexists. apply (wcstok_s_plain p (wcs r) (conj Hpne Hp)). }
  destruct Htok2 as [next2 Htok2].
  unfold resolve_identity. rewrite Hnouser.
  rewrite (wcschr_plain u (p ++ rest) Hu).
  change (wcstok_s (Some (u ++ wchar_of_ascii ":" :: p ++ rest)) (L ":") [])
    with (wcstok_s None (L ":")
            (wcs (u ++ wchar_of_ascii ":" :: p ++ rest))).
  rewrite Hwcs.
  rewrite (proj1 (wcstok_s_plain u (p ++ wcs rest) (conj Hune Hu))).
  rewrite Htok2.
  unfold _wcsdup, malloc, bind, call, ret. simpl.
  rewrite Halloc_u. simpl. rewrite Halloc_p. simpl.
  rewrite (proj1 (wcslen_plain u Hu)), (proj1 (wcslen_plain p Hp)).
  fold user password.
  destruct (UrlUnescapeW E u) as [res_u user'] eqn:Huu.
  destruct (UrlUnescapeW E p) as [res_p password'] eqn:Hpp.
  simpl in Hunescape_u, Hunescape_p. subst res_u res_p.
  subst user password. simpl.
  rewrite <- app_assoc. reflexivity.
Qed.

(** What [resolve_identity] returns is the identity the engine is called
    with. *)
Lemma init_hands_the_identity_on (E : Environment)
    (serviceobj principalobj : PyObject) (flags : Z)
    (userobj domainobj passwordobj mechoidobj : PyObject) (w w1 w2 : World)
    (service principal : option (list WCHAR)) (id id' : identity) :
  0 <= flags ->
  convert_arguments E serviceobj principalobj userobj domainobj passwordobj w
  = (Some (service, principal, id), w1) ->
  check_lengths E id w1 = (false, w1) ->
  resolve_identity E principal id w1 = (Some id', w2) ->
  sspi_client_init E serviceobj principalobj flags userobj domainobj
    passwordobj mechoidobj w
  = create_context E service flags id' mechoidobj w2.
Proof.
  intros Hflags Hconv Hlen Hres. unfold sspi_client_init.
  destruct (flags <? 0) eqn:Hlt; [apply Z.ltb_lt in Hlt; lia|].
  unfold bind at 1. rewrite Hconv.
  unfold bind at 1. rewrite Hlen.
  unfold bind at 1. rewrite Hres. reflexivity.
Qed.

Lemma principal_is_split_at_colons_witness :
  plain_part (L "alice") /\ plain_part (L "pa")
  /\ fst (resolve_identity mock32 (Some (L "alice:pa:ss"))
            {| id_user := None; id_ulen := 0;
               id_domain := Some (L "DOM"); id_dlen := 3;
               id_password := Some (L "old"); id_plen := 3 |} w0)
     = Some {| id_user := Some (L "alice"); id_ulen := 5;
               id_domain := None; id_dlen := 3;
               id_password := Some (L "pa"); id_plen := 2 |}.
Proof.
  assert (Hu : plain_part (L "alice"))
    by (split; [discriminate | repeat constructor; discriminate]).
  assert (Hp : plain_part (L "pa"))
    by (split; [discriminate | repeat constructor; discriminate]).
  split; [exact Hu|]. split; [exact Hp|].
  exact (f_equal fst
           (principal_is_split_at_colons mock32 (L "alice") (L "pa") (L ":ss")
              {| id_user := None; id_ulen := 0;
                 id_domain := Some (L "DOM"); id_dlen := 3;
                 id_password := Some (L "old"); id_plen := 3 |} w0
              eq_refl Hu Hp (or_intror (ex_intro _ (L "ss") eq_refl))
              eq_refl eq_refl eq_refl eq_refl)).
Defined.

(** C2, as stated, fails: for the principal "alice:pa:ss" the engine is
    called with the user "alice" and the password "pa", not "pa:ss". *)
Lemma principal_password_counterexample :
  let '(_, w') :=
    sspi_client_init mock32 (PyUnicode (L "service@host"))
      (PyUnicode (L "alice:pa:ss")) 0 Py_None Py_None Py_None Py_None w0 in
  exists args,
    last (trace w') E_PyCapsule_New = E_auth_sspi_client_init args
    /\ ci_user args = Some (L "alice")
    /\ ci_password args = Some (L "pa")
    /\ ci_password args <> Some (L "pa:ss").
Proof.
  vm_compute. eexists. split; [reflexivity|].
  repeat split; try reflexivity. discriminate.
Qed.

(** A colon inside the password has to be percent-encoded. *)
Example principal_with_encoded_colon :
  fst (resolve_identity mock32 (Some (L "alice:pa%3Ass"))
         {| id_user := None; id_ulen := 0; id_domain := None; id_dlen := 0;
            id_password := None; id_plen := 0 |} w0)
  = Some {| id_user := Some (L "alice"); id_ulen := 5;
            id_domain := None; id_dlen := 0;
            id_password := Some (L "pa:ss"); id_plen := 5 |}.
Proof. reflexivity. Qed.

(** ** Server impersonation *)

(** The sibling entry points return NULL when the engine reports an
    error: here [sspi_client_unwrap]. *)
Lemma unwrap_error_is_raised (E : Environment) (state : sspi_client_state)
    (challenge : string) (w : World) :
  strlen challenge <= ULONG_MAX E ->
  fst (fst (auth_sspi_client_unwrap E state challenge w)) = AUTH_GSS_ERROR ->
  fst (fst (sspi_client_unwrap E (PyCapsule (client_state_ptr state))
              challenge w)) = None.
Proof.
  intros Hlen Herr. unfold sspi_client_unwrap, _string_too_long.
  destruct (strlen challenge >? ULONG_MAX E) eqn:Hgt.
  { rewrite Z.gtb_ltb in Hgt. apply Z.ltb_lt in Hgt. lia. }
  unfold bind, ret.
  destruct (auth_sspi_client_unwrap E state challenge w) as [[r s'] w'].
  simpl in Herr. subst r. reflexivity.
Qed.

(** C9 fails on the code.  On a server context that has a security
    context, [sspi_server_impersonate] and [sspi_server_revert] return
    an integer object in every case: the provider is called once, and
    when it fails the error is set but the result is the integer
    [AUTH_GSS_ERROR], not NULL, so the error is not raised by the call.
    When the provider succeeds the result is [AUTH_GSS_COMPLETE] and no
    error is set. *)
Theorem impersonate_returns_its_status (E : Environment)
    (state : Server.sspi_server_state) (w : World)
    (Hctx : Server.haveCtx state = true) :
  let impersonated :=
    ImpersonateSecurityContext E (trace w) (Server.ctx state) in
  let reverted := RevertSecurityContext E (trace w) (Server.ctx state) in
  sspi_server_impersonate E (PyCapsule (server_state_ptr state)) w
  = (Some (PyInt_AUTH_GSS (if impersonated =? SEC_E_OK
                           then AUTH_GSS_COMPLETE else AUTH_GSS_ERROR)),
     {| trace := trace w ++ [E_ImpersonateSecurityContext (Server.ctx state)];
        pyerr := if impersonated =? SEC_E_OK then pyerr w
                 else Some (GSSError impersonated
                              "ImpersonateSecurityContext") |})
  /\ sspi_server_revert E (PyCapsule (server_state_ptr state)) w
     = (Some (PyInt_AUTH_GSS (if reverted =? SEC_E_OK
                              then AUTH_GSS_COMPLETE else AUTH_GSS_ERROR)),
        {| trace := trace w ++ [E_RevertSecurityContext (Server.ctx state)];
           pyerr := if reverted =? SEC_E_OK then pyerr w
                    else Some (GSSError reverted
                                 "RevertSecurityContext") |}).
Proof.
  intros impersonated reverted.
  unfold sspi_server_impersonate, sspi_server_revert,
    auth_sspi_server_impersonate, auth_sspi_server_revert.
  rewrite Hctx. run_monad.
  fold impersonated reverted.
  destruct (impersonated =? SEC_E_OK), (reverted =? SEC_E_OK);
    split; reflexivity.
Qed.

Lemma impersonate_returns_its_status_witness :
  Server.haveCtx established_server = true
  /\ sspi_server_impersonate (mock 4294967295 true 0 (-2146893045))
       (PyCapsule (server_state_ptr established_server)) w0
     = (Some (PyInt_AUTH_GSS AUTH_GSS_ERROR),
        {| trace := [E_ImpersonateSecurityContext 9];
           pyerr := Some (GSSError (-2146893045)
                            "ImpersonateSecurityContext") |}).
Proof.
  split; [reflexivity|].
  exact (proj1 (impersonate_returns_its_status
                  (mock 4294967295 true 0 (-2146893045))
                  established_server w0 eq_refl)).
Defined.

(** * Further properties of the engine and of the binding layer *)

(** ** The service principal name *)

Lemma poke_first_length (s : string) (c d : ascii) :
  String.length (poke_first s c d) = String.length s.
Proof.
  induction s as [|a s IH]; simpl; [reflexivity|].
  destruct (Ascii.eqb a c); simpl; [reflexivity | now rewrite IH].
Qed.

Lemma poke_first_absent (s : string) (c d : ascii) :
  strchr s c = false -> poke_first s c d = s.
Proof.
  induction s as [|a s IH]; simpl; [reflexivity|].
  destruct (Ascii.eqb a c); [discriminate|].
  intros H. now rewrite IH.
Qed.

Lemma poke_first_at (a b : string) (c d : ascii) :
  strchr a c = false ->
  poke_first (a ++ String c b)%string c d = (a ++ String d b)%string.
Proof.
  induction a as [|x a IH]; simpl.
  - intros _. now rewrite Ascii.eqb_refl.
  - destruct (Ascii.eqb x c); [discriminate|].
    intros H. now rewrite IH.
Qed.

(** X1. The conversion of a service name from RFC-2078 form to SPN form
    keeps the length of the name.  A name that contains a slash, or no
    at sign, is kept as it is; in a name without slash the first at sign,
    and only the first, becomes a slash. *)
Theorem rfc2078_conversion (s a b : string) :
  String.length (rfc2078_to_spn s) = String.length s
  /\ (strchr s "/" = true -> rfc2078_to_spn s = s)
  /\ (strchr s "@" = false -> rfc2078_to_spn s = s)
  /\ (strchr a "@" = false ->
      strchr (a ++ String "@" b) "/" = false ->
      rfc2078_to_spn (a ++ String "@" b) = (a ++ String "/" b)%string).
Proof.
  unfold rfc2078_to_spn. repeat split.
  - destruct (strchr s "/"); [reflexivity | apply poke_first_length].
  - intros ->. reflexivity.
  - intros H. destruct (strchr s "/"); [reflexivity|].
    now apply poke_first_absent.
  - intros Ha ->. now apply poke_first_at.
Qed.

Lemma rfc2078_conversion_witness :
  strchr "service" "@" = false
  /\ strchr "service@host@REALM" "/" = false
  /\ rfc2078_to_spn "service@host@REALM" = "service/host@REALM"
  /\ strchr "service/host@REALM" "/" = true
  /\ rfc2078_to_spn "service/host@REALM" = "service/host@REALM".
Proof.
  destruct (rfc2078_conversion "service/host@REALM" "service" "host@REALM")
    as (_ & Hslash & _ & Hat).
  split; [reflexivity|]. split; [reflexivity|].
  split; [exact (Hat eq_refl eq_refl)|].
  split; [reflexivity | exact (Hslash eq_refl)].
Defined.

(** ** Client init in the engine *)

(** X2. [auth_sspi_client_init] never asks to continue.  Whatever it
    returns, the state has no security context, no response and no user
    name, and holds the requested flags.  It returns [AUTH_GSS_COMPLETE]
    exactly when it leaves [haveCred] set; then no error is set, the
    service name is stored in SPN form, and the provider was called
    once, with the principal and with an identity that is NULL when no
    user is given (the domain and the password are then not passed) and
    that carries the user, the domain and the password otherwise.  When
    it returns [AUTH_GSS_ERROR] an error is set. *)
Theorem client_init_outcome (E : Environment) (service : string)
    (principal : option string) (gssflags : ULONG)
    (user domain password : option string) (state : sspi_client_state)
    (w : World) :
  let '(r, s', w') :=
    auth_sspi_client_init E service principal gssflags user domain password
      state w in
  haveCtx s' = false /\ response s' = None /\ username s' = None
  /\ flags s' = gssflags /\ qop s' = qop state /\ ctx s' = ctx state
  /\ match r with
     | AUTH_GSS_COMPLETE =>
         haveCred s' = true /\ pyerr w' = pyerr w
         /\ spn s' = Some (rfc2078_to_spn service)
         /\ exists auth,
              trace w' = trace w ++ [E_malloc (strlen service + 1);
                                     E_AcquireCredentialsHandleA principal auth]
              /\ match user, auth with
                 | None, None => True
                 | Some u, Some a =>
                     User a = u /\ Domain a = domain /\ Password a = password
                 | _, _ => False
                 end
     | AUTH_GSS_ERROR => haveCred s' = false /\ exists e, pyerr w' = Some e
     | AUTH_GSS_CONTINUE => False
     end.
Proof.
  unfold auth_sspi_client_init, _strdup, malloc. run_monad.
  destruct (malloc_ok E (trace w) (strlen service + 1)); simpl.
  2:{ repeat split; try reflexivity. eexists; reflexivity. }
  match goal with |- context [AcquireCredentialsHandleA E ?h ?p ?a] =>
    destruct (AcquireCredentialsHandleA E h p a) as [status newcred] end.
  destruct (status =? SEC_E_OK); simpl.
  - repeat split; try reflexivity.
    eexists. rewrite <- app_assoc. split; [reflexivity|].
    destruct user; simpl; auto.
  - match goal with |- context [set_krberror E ?c ?m ?w1] =>
      destruct (set_krberror_world E c m w1) as [e He]; rewrite He end.
    repeat split; try reflexivity. eexists; reflexivity.
Qed.

(** ** A step of the handshake *)

(** X3. A step calls [InitializeSecurityContextA] once and stores the
    context handle it returns; it leaves the credential handle, its
    flag, the SPN, the requested flags and [qop] alone.  [haveCtx] is
    set as soon as the provider accepts the step and is never cleared.
    The step returns [AUTH_GSS_CONTINUE] only when the provider asks to
    continue: nothing else is called, the user name is untouched and no
    error is set.  It returns [AUTH_GSS_COMPLETE] only when the provider
    is done, and then the user name is the one the provider reports.  It
    returns [AUTH_GSS_ERROR] only with an error set.  On a state without
    security context the challenge is not looked at. *)
Theorem step_outcome (E : Environment) (state : sspi_client_state)
    (challenge challenge2 : string) (w : World) :
  let status := fst (fst (step_answer E state challenge w)) in
  let newctx := snd (fst (step_answer E state challenge w)) in
  let '(r, s', w') := auth_sspi_client_step E state challenge w in
  cred s' = cred state /\ haveCred s' = haveCred state
  /\ spn s' = spn state /\ flags s' = flags state /\ qop s' = qop state
  /\ ctx s' = newctx
  /\ haveCtx s'
     = (haveCtx state || (status =? SEC_E_OK)
        || (status =? SEC_I_CONTINUE_NEEDED))%bool
  /\ match r with
     | AUTH_GSS_CONTINUE =>
         status = SEC_I_CONTINUE_NEEDED /\ haveCtx s' = true
         /\ username s' = username state /\ pyerr w' = pyerr w
         /\ trace w' = trace w ++ [step_call E state challenge]
     | AUTH_GSS_COMPLETE =>
         status = SEC_E_OK /\ haveCtx s' = true
         /\ username s'
            = Some (snd (QueryContextAttributes_Names E
                           (trace w ++ [step_call E state challenge])
                           newctx))
         /\ pyerr w' = pyerr w
     | AUTH_GSS_ERROR => exists e, pyerr w' = Some e
     end
  /\ auth_sspi_client_step E (set_haveCtx state false) challenge w
     = auth_sspi_client_step E (set_haveCtx state false) challenge2 w.
Proof.
  intros status newctx.
  assert (Hfirst :
    auth_sspi_client_step E (set_haveCtx state false) challenge w
    = auth_sspi_client_step E (set_haveCtx state false) challenge2 w).
  { unfold auth_sspi_client_step. rewrite !response_cleared. reflexivity. }
  revert status newctx. unfold step_answer, step_call.
  unfold auth_sspi_client_step. rewrite response_cleared. simpl.
  run_monad.
  destruct (InitializeSecurityContextA E (trace w) (cred state)
              (if haveCtx state then Some (ctx state) else None) (spn state)
              (Z.lor ISC_REQ_ALLOCATE_MEMORY (flags state))
              (if haveCtx state
               then Some (SecBuffer_of E (base64_decode E challenge))
               else None)) as [[status newctx] out].
  simpl.
  destruct (status =? SEC_E_OK) eqn:Hok; simpl.
  - apply Z.eqb_eq in Hok.
    destruct out as [|b out]; simpl;
      (destruct (QueryContextAttributes_Names E _ newctx)
         as [status' name] eqn:Hq;
       destruct (status' =? SEC_E_OK); simpl;
       [ destruct (malloc_ok E _ _); simpl;
         rewrite ?orb_true_r; repeat split; try assumption;
         try reflexivity; try (eexists; reflexivity)
       | match goal with |- context [set_krberror E ?c ?m ?w1] =>
           destruct (set_krberror_world E c m w1) as [e He]; rewrite He end;
         simpl; rewrite ?orb_true_r; repeat split; try assumption;
         try reflexivity; try (eexists; reflexivity) ]).
  - destruct (status =? SEC_I_CONTINUE_NEEDED) eqn:Hcont; simpl.
    + apply Z.eqb_eq in Hcont.
      destruct out; simpl; rewrite ?orb_true_r; repeat split;
        try assumption; reflexivity.
    + match goal with |- context [set_krberror E ?c ?m ?w1] =>
        destruct (set_krberror_world E c m w1) as [e He]; rewrite He end.
      simpl. rewrite !orb_false_r. repeat split; try assumption;
        try reflexivity. eexists; reflexivity.
Qed.

(** ** Unwrap and wrap *)

(** X4. [auth_sspi_client_unwrap] changes nothing of the state but the
    response and never asks to continue.  It returns
    [AUTH_GSS_COMPLETE] only on a state with a security context whose
    [DecryptMessage] call, the only external call made, succeeded; no
    error is set, and the response is the encoding of the decrypted
    data, or absent when the provider returned no data.  It returns
    [AUTH_GSS_ERROR] only with an error set and no response. *)
Theorem unwrap_outcome (E : Environment) (state : sspi_client_state)
    (challenge : string) (w : World) :
  let stream := SecBuffer_of E (base64_decode E challenge) in
  let answer := DecryptMessage E (trace w) (ctx state) stream in
  let '(r, s', w') := auth_sspi_client_unwrap E state challenge w in
  s' = set_response state (response s')
  /\ match r with
     | AUTH_GSS_COMPLETE =>
         haveCtx state = true /\ fst (fst answer) = SEC_E_OK
         /\ response s'
            = match snd (fst answer) with
              | [] => None
              | _ :: _ => base64_encode E (snd (fst answer))
              end
         /\ pyerr w' = pyerr w
         /\ trace w' = trace w ++ [E_DecryptMessage (ctx state) stream]
     | AUTH_GSS_ERROR => response s' = None /\ exists e, pyerr w' = Some e
     | AUTH_GSS_CONTINUE => False
     end.
Proof.
  intros stream answer. revert answer. unfold stream. clear stream.
  unfold auth_sspi_client_unwrap. rewrite response_cleared.
  destruct (haveCtx state) eqn:Hx; simpl; rewrite Hx; simpl.
  2:{ run_monad. repeat split. eexists; reflexivity. }
  run_monad.
  destruct (DecryptMessage E (trace w) (ctx state)
              (SecBuffer_of E (base64_decode E challenge)))
    as [[status data] found].
  simpl.
  destruct (status =? SEC_E_OK) eqn:Hok; simpl.
  - apply Z.eqb_eq in Hok. destruct data; repeat split; assumption.
  - match goal with |- context [set_krberror E ?c ?m ?w1] =>
      destruct (set_krberror_world E c m w1) as [e He]; rewrite He end.
    repeat split. eexists; reflexivity.
Qed.

(** X5. [auth_sspi_client_wrap] changes nothing of the state but the
    response and never asks to continue.  It returns
    [AUTH_GSS_COMPLETE] only on a state with a security context, after a
    size query that succeeded, and sets no error; it returns
    [AUTH_GSS_ERROR] only with an error set and no response.  When a
    user is given, [data] is not looked at. *)
Theorem wrap_outcome (E : Environment) (state : sspi_client_state)
    (data data2 user : string) (who : option string) (w : World) :
  (let '(r, s', w') := auth_sspi_client_wrap E state data who w in
   s' = set_response state (response s')
   /\ match r with
      | AUTH_GSS_COMPLETE =>
          haveCtx state = true /\ pyerr w' = pyerr w
          /\ fst (QueryContextAttributes_Sizes E (trace w) (ctx state))
             = SEC_E_OK
      | AUTH_GSS_ERROR => response s' = None /\ exists e, pyerr w' = Some e
      | AUTH_GSS_CONTINUE => False
      end)
  /\ auth_sspi_client_wrap E state data (Some user) w
     = auth_sspi_client_wrap E state data2 (Some user) w.
Proof.
  split; [|reflexivity].
  unfold auth_sspi_client_wrap. rewrite response_cleared.
  destruct (haveCtx state) eqn:Hx; simpl; rewrite Hx; simpl.
  2:{ run_monad. repeat split. eexists; reflexivity. }
  run_monad.
  destruct (QueryContextAttributes_Sizes E (trace w) (ctx state))
    as [status sizes].
  simpl.
  destruct (status =? SEC_E_OK) eqn:Hok; simpl.
  2:{ match goal with |- context [set_krberror E ?c ?m ?w1] =>
        destruct (set_krberror_world E c m w1) as [e He]; rewrite He end.
      repeat split. eexists; reflexivity. }
  apply Z.eqb_eq in Hok.
  destruct (malloc_ok E _ _); simpl.
  2:{ repeat split. eexists; reflexivity. }
  match goal with |- context [EncryptMessage E ?h ?x ?q ?t ?p ?b] =>
    destruct (EncryptMessage E h x q t p b) as [status' bufs] end.
  destruct (status' =? SEC_E_OK); simpl.
  2:{ match goal with |- context [set_krberror E ?c ?m ?w1] =>
        destruct (set_krberror_world E c m w1) as [e He]; rewrite He end.
      repeat split. eexists; reflexivity. }
  destruct (malloc_ok E _ _); simpl.
  - repeat split; assumption.
  - repeat split. eexists; reflexivity.
Qed.

(** ** What the engine does with the handles *)

Ltac trace_grows :=
  first [ eexists; rewrite <- ?app_assoc; split; reflexivity
        | exists []; rewrite app_nil_r; split; reflexivity ].

Lemma step_summary (E : Environment) (state : sspi_client_state)
    (challenge : string) (w : World) :
  let '(r, s', w') := auth_sspi_client_step E state challenge w in
  (exists added,
     trace w' = trace w ++ added
     /\ forallb (fun e => negb (releases_handle e)) added = true)
  /\ match r with
     | AUTH_GSS_ERROR => exists e, pyerr w' = Some e
     | AUTH_GSS_COMPLETE =>
         haveCtx s' = true /\ pyerr w' = pyerr w
         /\ exists name, username s' = Some name
     | AUTH_GSS_CONTINUE =>
         haveCtx s' = true /\ pyerr w' = pyerr w
         /\ username s' = username state
     end.
Proof.
  unfold auth_sspi_client_step. rewrite response_cleared. simpl.
  run_monad.
  destruct (InitializeSecurityContextA E (trace w) (cred state)
              (if haveCtx state then Some (ctx state) else None) (spn state)
              (Z.lor ISC_REQ_ALLOCATE_MEMORY (flags state))
              (if haveCtx state
               then Some (SecBuffer_of E (base64_decode E challenge))
               else None)) as [[status newctx] out].
  simpl.
  destruct (status =? SEC_E_OK) eqn:Hok; simpl.
  - destruct out as [|b out]; simpl;
      (destruct (QueryContextAttributes_Names E _ newctx)
         as [status' name] eqn:Hq;
       destruct (status' =? SEC_E_OK); simpl;
       [ destruct (malloc_ok E _ _); simpl
       | match goal with |- context [set_krberror E ?c ?m ?w1] =>
           destruct (set_krberror_world E c m w1) as [e He]; rewrite He end;
         simpl ];
       (split; [trace_grows|]);
       repeat split; try reflexivity; eexists; reflexivity).
  - destruct (status =? SEC_I_CONTINUE_NEEDED) eqn:Hcont; simpl.
    + destruct out; simpl; (split; [trace_grows|]); repeat split.
    + match goal with |- context [set_krberror E ?c ?m ?w1] =>
        destruct (set_krberror_world E c m w1) as [e He]; rewrite He end.
      simpl. split; [trace_grows|]. eexists; reflexivity.
Qed.

Lemma unwrap_summary (E : Environment) (state : sspi_client_state)
    (challenge : string) (w : World) :
  let '(r, s', w') := auth_sspi_client_unwrap E state challenge w in
  (exists added,
     trace w' = trace w ++ added
     /\ forallb (fun e => negb (releases_handle e)) added = true)
  /\ (haveCtx state = true ->
      trace w'
      = trace w ++ [E_DecryptMessage (ctx state)
                      (SecBuffer_of E (base64_decode E challenge))])
  /\ match r with
     | AUTH_GSS_ERROR => (exists e, pyerr w' = Some e) /\ response s' = None
     | AUTH_GSS_COMPLETE => pyerr w' = pyerr w
     | AUTH_GSS_CONTINUE => False
     end.
Proof.
  unfold auth_sspi_client_unwrap. rewrite response_cleared.
  destruct (haveCtx state) eqn:Hx; simpl; rewrite Hx; simpl.
  2:{ run_monad. split; [trace_grows|]. split; [discriminate|].
      split; [eexists|]; reflexivity. }
  run_monad.
  destruct (DecryptMessage E (trace w) (ctx state)
              (SecBuffer_of E (base64_decode E challenge)))
    as [[status data] found].
  destruct (status =? SEC_E_OK); simpl.
  - split; [trace_grows|]. split; reflexivity.
  - match goal with |- context [set_krberror E ?c ?m ?w1] =>
      destruct (set_krberror_world E c m w1) as [e He]; rewrite He end.
    simpl. split; [trace_grows|]. split; [reflexivity|].
    split; [eexists|]; reflexivity.
Qed.

Lemma wrap_summary (E : Environment) (state : sspi_client_state)
    (data : string) (user : option string) (w : World) :
  let '(r, s', w') := auth_sspi_client_wrap E state data user w in
  (exists added,
     trace w' = trace w ++ added
     /\ forallb (fun e => negb (releases_handle e)) added = true)
  /\ (haveCtx state = true ->
      exists rest,
        trace w'
        = trace w
          ++ E_QueryContextAttributes (ctx state) SECPKG_ATTR_SIZES :: rest)
  /\ match r with
     | AUTH_GSS_ERROR => (exists e, pyerr w' = Some e) /\ response s' = None
     | AUTH_GSS_COMPLETE => pyerr w' = pyerr w
     | AUTH_GSS_CONTINUE => False
     end.
Proof.
  unfold auth_sspi_client_wrap. rewrite response_cleared.
  destruct (haveCtx state) eqn:Hx; simpl; rewrite Hx; simpl.
  2:{ run_monad. split; [trace_grows|]. split; [discriminate|].
      split; [eexists|]; reflexivity. }
  run_monad.
  destruct (QueryContextAttributes_Sizes E (trace w) (ctx state))
    as [status sizes].
  destruct (status =? SEC_E_OK); simpl.
  2:{ match goal with |- context [set_krberror E ?c ?m ?w1] =>
        destruct (set_krberror_world E c m w1) as [e He]; rewrite He end.
      simpl. split; [trace_grows|].
      split; [intros _; eexists; reflexivity|].
      split; [eexists|]; reflexivity. }
  destruct (malloc_ok E _ _); simpl.
  2:{ split; [trace_grows|].
      split; [intros _; eexists; rewrite <- app_assoc; reflexivity|].
      split; [eexists|]; reflexivity. }
  match goal with |- context [EncryptMessage E ?h ?x ?q ?t ?p ?b] =>
    destruct (EncryptMessage E h x q t p b) as [status' bufs] end.
  destruct (status' =? SEC_E_OK); simpl.
  2:{ match goal with |- context [set_krberror E ?c ?m ?w1] =>
        destruct (set_krberror_world E c m w1) as [e He]; rewrite He end.
      simpl. split; [trace_grows|].
      split; [intros _; eexists; rewrite <- !app_assoc; reflexivity|].
      split; [eexists|]; reflexivity. }
  destruct (malloc_ok E _ _); simpl;
    (split; [trace_grows|];
     split; [intros _; eexists; rewrite <- !app_assoc; reflexivity|]).
  - reflexivity.
  - split; [eexists|]; reflexivity.
Qed.

Lemma init_summary (E : Environment) (service : string)
    (principal : option string) (gssflags : ULONG)
    (user domain password : option string) (state : sspi_client_state)
    (w : World) :
  exists added,
    trace (snd (auth_sspi_client_init E service principal gssflags user
                  domain password state w))
    = trace w ++ added
    /\ forallb (fun e => negb (releases_handle e)) added = true.
Proof.
  unfold auth_sspi_client_init, _strdup, malloc. run_monad.
  destruct (malloc_ok E (trace w) (strlen service + 1)); simpl;
    [|trace_grows].
  match goal with |- context [AcquireCredentialsHandleA E ?h ?p ?a] =>
    destruct (AcquireCredentialsHandleA E h p a) as [status newcred] end.
  destruct (status =? SEC_E_OK); simpl; [trace_grows|].
  match goal with |- context [set_krberror E ?c ?m ?w1] =>
    destruct (set_krberror_world E c m w1) as [e He]; rewrite He end.
  simpl. trace_grows.
Qed.

(** X6. Init, step, unwrap and wrap only add calls to the trace, and
    none of the calls they add gives a handle back to the provider
    ([DeleteSecurityContext], [FreeCredentialsHandle]): whatever they
    return, releasing the handles is left to
    [destroy_sspi_client_state]. *)
Theorem engine_keeps_its_handles (E : Environment)
    (state : sspi_client_state) (service challenge data : string)
    (principal user domain password who : option string) (gssflags : ULONG)
    (w : World) :
  (exists added,
     trace (snd (auth_sspi_client_init E service principal gssflags user
                   domain password state w)) = trace w ++ added
     /\ forallb (fun e => negb (releases_handle e)) added = true)
  /\ (exists added,
        trace (snd (auth_sspi_client_step E state challenge w))
        = trace w ++ added
        /\ forallb (fun e => negb (releases_handle e)) added = true)
  /\ (exists added,
        trace (snd (auth_sspi_client_unwrap E state challenge w))
        = trace w ++ added
        /\ forallb (fun e => negb (releases_handle e)) added = true)
  /\ (exists added,
        trace (snd (auth_sspi_client_wrap E state data who w))
        = trace w ++ added
        /\ forallb (fun e => negb (releases_handle e)) added = true).
Proof.
  split; [apply init_summary|].
  pose proof (step_summary E state challenge w) as Hs.
  pose proof (unwrap_summary E state challenge w) as Hu.
  pose proof (wrap_summary E state data who w) as Hw.
  destruct (auth_sspi_client_step E state challenge w) as [[r1 s1] w1].
  destruct (auth_sspi_client_unwrap E state challenge w) as [[r2 s2] w2].
  destruct (auth_sspi_client_wrap E state data who w) as [[r3 s3] w3].
  simpl. split; [exact (proj1 Hs)|]. split; [exact (proj1 Hu)|].
  exact (proj1 Hw).
Qed.

Lemma destroy_leaves_nothing (state : sspi_client_state) (w : World) :
  haveCtx (fst (destroy_sspi_client_state state w)) = false
  /\ response (fst (destroy_sspi_client_state state w)) = None.
Proof.
  destruct state as [c x sp r u f hc hx q].
  destruct hc, hx, sp, r, u; split; reflexivity.
Qed.

(** X7. A destroyed state is guarded: after
    [destroy_sspi_client_state], wrap and unwrap return
    [AUTH_GSS_ERROR] with the uninitialized-context error, call nothing
    and leave the destroyed state as it is. *)
Theorem wrap_after_destroy (E : Environment) (state : sspi_client_state)
    (challenge data : string) (who : option string) (w : World) :
  let '(s1, w1) := destroy_sspi_client_state state w in
  auth_sspi_client_wrap E s1 data who w1
  = (AUTH_GSS_ERROR, s1,
     {| trace := trace w1;
        pyerr := Some (KrbError uninitialized_context_message) |})
  /\ auth_sspi_client_unwrap E s1 challenge w1
     = (AUTH_GSS_ERROR, s1,
        {| trace := trace w1;
           pyerr := Some (KrbError uninitialized_context_message) |}).
Proof.
  pose proof (destroy_leaves_nothing state w) as [Hx Hr].
  destruct (destroy_sspi_client_state state w) as [s1 w1].
  simpl in Hx, Hr.
  assert (Hs : set_response s1 None = s1).
  { rewrite <- Hr. apply set_response_same. }
  unfold auth_sspi_client_wrap, auth_sspi_client_unwrap.
  rewrite response_cleared, Hs, Hx. simpl. run_monad.
  split; reflexivity.
Qed.

(** X8. The guard of wrap and unwrap is the presence of a security
    context, not the completion of the handshake: after a step that
    returned [AUTH_GSS_CONTINUE], wrap goes on to query the sizes of the
    context and unwrap to call [DecryptMessage]. *)
Theorem wrap_is_admitted_during_negotiation (E : Environment)
    (state : sspi_client_state) (challenge token data : string)
    (who : option string) (w : World) :
  let '(r, s1, w1) := auth_sspi_client_step E state challenge w in
  match r with
  | AUTH_GSS_CONTINUE =>
      (exists rest,
         trace (snd (auth_sspi_client_wrap E s1 data who w1))
         = trace w1
           ++ E_QueryContextAttributes (ctx s1) SECPKG_ATTR_SIZES :: rest)
      /\ trace (snd (auth_sspi_client_unwrap E s1 token w1))
         = trace w1 ++ [E_DecryptMessage (ctx s1)
                          (SecBuffer_of E (base64_decode E token))]
  | _ => True
  end.
Proof.
  pose proof (step_summary E state challenge w) as Hs.
  destruct (auth_sspi_client_step E state challenge w) as [[r s1] w1].
  destruct r; try exact I.
  destruct Hs as (_ & Hx & _).
  pose proof (wrap_summary E s1 data who w1) as Hw.
  pose proof (unwrap_summary E s1 token w1) as Hu.
  destruct (auth_sspi_client_wrap E s1 data who w1) as [[r2 s2] w2].
  destruct (auth_sspi_client_unwrap E s1 token w1) as [[r3 s3] w3].
  simpl. split.
  - exact (proj1 (proj2 Hw) Hx).
  - exact (proj1 (proj2 Hu) Hx).
Qed.

Lemma wrap_is_admitted_during_negotiation_witness :
  fst (fst (auth_sspi_client_step mock32 fresh_context "" w0))
  = AUTH_GSS_CONTINUE
  /\ trace (snd (auth_sspi_client_unwrap mock32
                   (snd (fst (auth_sspi_client_step mock32 fresh_context ""
                                w0)))
                   "YWJj"
                   (snd (auth_sspi_client_step mock32 fresh_context "" w0))))
     = [E_InitializeSecurityContextA 1 None (Some "service/host") 266 None;
        E_DecryptMessage 7 (bytes_of_string "abc")].
Proof.
  pose proof (wrap_is_admitted_during_negotiation mock32 fresh_context ""
                "YWJj" "" None w0) as H.
  destruct (auth_sspi_client_step mock32 fresh_context "" w0)
    as [[r s1] w1] eqn:Hrun.
  assert (Hr : r = AUTH_GSS_CONTINUE)
    by (vm_compute in Hrun; inversion Hrun; reflexivity).
  subst r. destruct H as [_ Hu].
  split; [reflexivity|]. simpl fst. simpl snd. rewrite Hu.
  vm_compute in Hrun. inversion Hrun. subst. reflexivity.
Defined.

(** ** The client entry points *)

Lemma string_too_long_run (E : Environment) (key : string) (n : Z)
    (w : World) :
  _string_too_long E key n w
  = if n >? ULONG_MAX E
    then (true, {| trace := trace w;
                   pyerr := Some (PyExc_ValueError
                                    (key ++ " too large")%string) |})
    else (false, w).
Proof.
  unfold _string_too_long. destruct (n >? ULONG_MAX E); reflexivity.
Qed.

(** X9. On a client context, [sspi_client_step], [sspi_client_unwrap]
    and [sspi_client_wrap] either return NULL with an error set, or
    return a status that is never the error code and leave the error
    indicator as it was: the status is [AUTH_GSS_COMPLETE] or, for step
    only, [AUTH_GSS_CONTINUE].  The context object stays a client
    context. *)
Theorem client_entry_points_raise (E : Environment)
    (state : sspi_client_state) (challenge data : string)
    (who : option string) (protect : Z) (w : World) :
  let pyctx := PyCapsule (client_state_ptr state) in
  (let '(result, pyctx', w') := sspi_client_step E pyctx challenge w in
   (exists s', pyctx' = PyCapsule (client_state_ptr s'))
   /\ match result with
      | None => exists e, pyerr w' = Some e
      | Some o =>
          (o = PyInt_AUTH_GSS AUTH_GSS_COMPLETE
           \/ o = PyInt_AUTH_GSS AUTH_GSS_CONTINUE)
          /\ pyerr w' = pyerr w
      end)
  /\ (let '(result, pyctx', w') := sspi_client_unwrap E pyctx challenge w in
      (exists s', pyctx' = PyCapsule (client_state_ptr s'))
      /\ match result with
         | None => exists e, pyerr w' = Some e
         | Some o => o = PyInt_AUTH_GSS AUTH_GSS_COMPLETE /\ pyerr w' = pyerr w
         end)
  /\ (let '(result, pyctx', w') :=
        sspi_client_wrap E pyctx data who protect w in
      (exists s', pyctx' = PyCapsule (client_state_ptr s'))
      /\ match result with
         | None => exists e, pyerr w' = Some e
         | Some o => o = PyInt_AUTH_GSS AUTH_GSS_COMPLETE /\ pyerr w' = pyerr w
         end).
Proof.
  intros pyctx. unfold pyctx. clear pyctx.
  split; [|split].
  - unfold sspi_client_step. unfold bind at 1.
    rewrite string_too_long_run.
    destruct (strlen challenge >? ULONG_MAX E).
    { simpl. split; eexists; reflexivity. }
    unfold bind, ret.
    pose proof (step_summary E state challenge w) as Hs.
    destruct (auth_sspi_client_step E state challenge w) as [[r s'] w'].
    destruct Hs as [_ Hs].
    destruct r; simpl; (split; [eexists; reflexivity|]).
    + exact Hs.
    + split; [left; reflexivity | exact (proj1 (proj2 Hs))].
    + split; [right; reflexivity | exact (proj1 (proj2 Hs))].
  - unfold sspi_client_unwrap. unfold bind at 1.
    rewrite string_too_long_run.
    destruct (strlen challenge >? ULONG_MAX E).
    { simpl. split; eexists; reflexivity. }
    unfold bind, ret.
    pose proof (unwrap_summary E state challenge w) as Hs.
    destruct (auth_sspi_client_unwrap E state challenge w) as [[r s'] w'].
    destruct Hs as (_ & _ & Hs).
    destruct r; simpl; try contradiction; (split; [eexists; reflexivity|]).
    + exact (proj1 Hs).
    + split; [reflexivity | exact Hs].
  - unfold sspi_client_wrap. unfold bind at 1.
    rewrite string_too_long_run.
    destruct (strlen data >? ULONG_MAX E).
    { simpl. split; eexists; reflexivity. }
    unfold bind at 1. rewrite string_too_long_run.
    destruct (_ >? ULONG_MAX E).
    { simpl. split; eexists; reflexivity. }
    unfold bind, ret.
    pose proof (wrap_summary E state data who w) as Hs.
    destruct (auth_sspi_client_wrap E state data who w) as [[r s'] w'].
    destruct Hs as (_ & _ & Hs).
    destruct r; simpl; try contradiction; (split; [eexists; reflexivity|]).
    + exact (proj1 Hs).
    + split; [reflexivity | exact Hs].
Qed.

(** X10. [sspi_client_wrap] checks its arguments in this order: [data]
    longer than [ULONG_MAX], then [user] longer than [ULONG_MAX - 4],
    then a context object that is not a capsule.  Each of these
    failures returns NULL with its error (ValueError "data too large",
    ValueError "user too large", TypeError) without any external call
    and leaves the context object, its previous response included, as
    it was.  [sspi_client_step] and [sspi_client_unwrap] check the
    length of the challenge before the context object in the same way. *)
Theorem entry_points_check_lengths_first (E : Environment)
    (pyctx : PyObject) (challenge data : string) (who : option string)
    (protect : Z) (w : World) :
  let ulen := match who with Some u => strlen u | None => 0 end in
  let rejected (e : PyErr) :=
    (@None PyObject, pyctx, {| trace := trace w; pyerr := Some e |}) in
  let not_a_context :=
    PyExc_TypeError "Expected a context object" in
  (if strlen data >? ULONG_MAX E then
     sspi_client_wrap E pyctx data who protect w
     = rejected (PyExc_ValueError "data too large")
   else if ulen + 4 >? ULONG_MAX E then
     sspi_client_wrap E pyctx data who protect w
     = rejected (PyExc_ValueError "user too large")
   else match pyctx with
        | PyCapsule _ => True
        | _ => sspi_client_wrap E pyctx data who protect w
               = rejected not_a_context
        end)
  /\ (if strlen challenge >? ULONG_MAX E then
        sspi_client_step E pyctx challenge w
        = rejected (PyExc_ValueError "challenge too large")
        /\ sspi_client_unwrap E pyctx challenge w
           = rejected (PyExc_ValueError "challenge too large")
      else match pyctx with
           | PyCapsule _ => True
           | _ => sspi_client_step E pyctx challenge w
                  = rejected not_a_context
                  /\ sspi_client_unwrap E pyctx challenge w
                     = rejected not_a_context
           end).
Proof.
  intros ulen rejected not_a_context.
  unfold rejected, not_a_context, ulen.
  split.
  - destruct (strlen data >? ULONG_MAX E) eqn:Hd.
    { unfold sspi_client_wrap. unfold bind at 1.
      rewrite string_too_long_run, Hd. reflexivity. }
    destruct (match who with Some u => strlen u | None => 0 end + 4
              >? ULONG_MAX E) eqn:Hu.
    { unfold sspi_client_wrap. unfold bind at 1.
      rewrite string_too_long_run, Hd. cbv beta iota. unfold bind at 1.
      rewrite string_too_long_run, Hu. reflexivity. }
    destruct pyctx; try exact I;
      (unfold sspi_client_wrap; unfold bind at 1;
       rewrite string_too_long_run, Hd; cbv beta iota; unfold bind at 1;
       rewrite string_too_long_run, Hu; reflexivity).
  - destruct (strlen challenge >? ULONG_MAX E) eqn:Hc.
    { split; [unfold sspi_client_step | unfold sspi_client_unwrap];
        unfold bind at 1; rewrite string_too_long_run, Hc; reflexivity. }
    destruct pyctx; try exact I;
      (split; [unfold sspi_client_step | unfold sspi_client_unwrap];
       unfold bind at 1; rewrite string_too_long_run, Hc; reflexivity).
Qed.

Lemma entry_points_check_lengths_first_witness :
  let pyctx :=
    PyCapsule (client_state_ptr (set_response established_context
                                   (Some "VDE="))) in
  let data := string_of_list_ascii (repeat "A"%char 256) in
  (strlen data >? ULONG_MAX mock8) = true
  /\ sspi_client_wrap mock8 pyctx data None 0 w0
     = (None, pyctx,
        {| trace := []; pyerr := Some (PyExc_ValueError "data too large") |}).
Proof.
  split; [reflexivity|].
  pose proof (entry_points_check_lengths_first mock8
                (PyCapsule (client_state_ptr
                              (set_response established_context
                                 (Some "VDE="))))
                "" (string_of_list_ascii (repeat "A"%char 256)) None 0 w0)
    as [H _].
  exact H.
Defined.

(** ** The conversion of the arguments of init *)

Lemma wcs_length (b : list WCHAR) :
  (List.length (wcs b) <= List.length b)%nat.
Proof.
  induction b as [|c b IH]; simpl; [lia|].
  destruct (c =? 0); simpl; lia.
Qed.

Lemma wcs_full (b : list WCHAR) :
  List.length (wcs b) = List.length b -> wcs b = b /\ ~ In 0 b.
Proof.
  induction b as [|c b IH]; simpl; [intros _; split; [reflexivity | tauto]|].
  destruct (c =? 0) eqn:Hc; simpl; [discriminate|].
  intros H. injection H as H. destruct (IH H) as [Hw Hn].
  split; [now rewrite Hw|].
  intros [Hz | Hin]; [|contradiction].
  subst c. discriminate.
Qed.

Lemma wcs_with_nul (b : list WCHAR) :
  In 0 b -> (List.length (wcs b) < List.length b)%nat.
Proof.
  induction b as [|c b IH]; simpl; [tauto|].
  destruct (c =? 0) eqn:Hc; simpl; [lia|].
  intros [Hz | Hin].
  - subst c. discriminate.
  - specialize (IH Hin). lia.
Qed.

(** X11. When [_py_unicode_to_wchar] succeeds, the buffer it returns
    holds exactly as many wide characters as the string has characters,
    none of them NUL, and this number is the length it reports; one
    allocation was made and no error is set. *)
Theorem converted_text_has_no_nul (E : Environment) (chars : list WCHAR)
    (w w1 : World) (out : option (list WCHAR)) (n : Z)
    (Hrun : _py_unicode_to_wchar E chars w = (Some (out, n), w1)) :
  exists wide,
    out = Some wide
    /\ n = Z.of_nat (List.length chars)
    /\ List.length wide = List.length chars
    /\ ~ In 0 wide
    /\ pyerr w1 = pyerr w
    /\ trace w1 = trace w ++ [E_malloc (sizeof_WCHAR * (n + 1))].
Proof.
  unfold _py_unicode_to_wchar, malloc in Hrun.
  unfold bind, call, ret, PyErr_Set in Hrun. simpl in Hrun.
  destruct (malloc_ok E _ _); simpl in Hrun; [|discriminate].
  destruct (PyUnicode_AsWideChar E chars _) as [copied|]; [|discriminate].
  destruct (wcslen _ =? _) eqn:Hlen; simpl in Hrun; [|discriminate].
  rewrite Nat2Z.id in Hrun, Hlen.
  inversion Hrun; subst. clear Hrun.
  apply Z.eqb_eq in Hlen. unfold wcslen in Hlen. apply Nat2Z.inj in Hlen.
  set (wide := firstn (List.length chars) copied) in *.
  assert (Hle : (List.length wide <= List.length chars)%nat).
  { unfold wide. rewrite length_firstn. lia. }
  pose proof (wcs_length wide) as Hw.
  assert (Hfull : List.length (wcs wide) = List.length wide) by lia.
  destruct (wcs_full wide Hfull) as [_ Hnul].
  exists wide. repeat split; try reflexivity; try assumption. lia.
Qed.

Lemma converted_text_has_no_nul_witness :
  _py_unicode_to_wchar mock32 (L "alice") w0
  = (Some (Some (L "alice"), 5),
     {| trace := [E_malloc 12]; pyerr := None |})
  /\ exists wide,
       Some (L "alice") = Some wide /\ List.length wide = 5%nat
       /\ ~ In 0 wide.
Proof.
  assert (Hrun : _py_unicode_to_wchar mock32 (L "alice") w0
                 = (Some (Some (L "alice"), 5),
                    {| trace := [E_malloc 12]; pyerr := None |}))
    by reflexivity.
  split; [exact Hrun|].
  destruct (converted_text_has_no_nul mock32 (L "alice") w0 _ _ _ Hrun)
    as (wide & Ho & _ & Hl & Hn & _).
  exists wide. repeat split; assumption.
Defined.

(** X12. A string with an embedded NUL is refused: when the allocation
    succeeds and [PyUnicode_AsWideChar] copies the characters of the
    string, [_py_unicode_to_wchar] fails with the ValueError "embedded
    null character". *)
Theorem text_with_nul_is_refused (E : Environment) (chars : list WCHAR)
    (w : World)
    (Halloc : malloc_ok E (trace w)
                (sizeof_WCHAR * (Z.of_nat (List.length chars) + 1)) = true)
    (Hcopy : PyUnicode_AsWideChar E chars (Z.of_nat (List.length chars))
             = Some chars)
    (Hnul : In 0 chars) :
  _py_unicode_to_wchar E chars w
  = (None,
     {| trace := trace w ++ [E_malloc (sizeof_WCHAR
                                       * (Z.of_nat (List.length chars) + 1))];
        pyerr := Some (PyExc_ValueError "embedded null character") |}).
Proof.
  unfold _py_unicode_to_wchar, malloc. unfold bind, call, ret, PyErr_Set.
  simpl. rewrite Halloc, Hcopy. simpl.
  rewrite Nat2Z.id, firstn_all.
  pose proof (wcs_with_nul chars Hnul) as Hlt.
  destruct (wcslen chars =? Z.of_nat (List.length chars)) eqn:Hlen.
  - apply Z.eqb_eq in Hlen. unfold wcslen in Hlen. lia.
  - reflexivity.
Qed.

Lemma text_with_nul_is_refused_witness :
  In 0 [97; 0; 98]
  /\ _py_unicode_to_wchar mock32 [97; 0; 98] w0
     = (None,
        {| trace := [E_malloc 8];
           pyerr := Some (PyExc_ValueError "embedded null character") |}).
Proof.
  split; [right; left; reflexivity|].
  exact (text_with_nul_is_refused mock32 [97; 0; 98] w0 eq_refl eq_refl
           (or_intror (or_introl eq_refl))).
Defined.

(** X13. When [_py_buffer_to_wchar] succeeds, its argument exports a
    contiguous buffer of single bytes that is present and holds at most
    [INT_MAX] bytes; the result is what [MultiByteToWideChar] made of
    these bytes, it is not empty, and the length reported is its number
    of wide characters. *)
Theorem converted_buffer_is_checked (E : Environment) (obj : PyObject)
    (w w1 : World) (out : option (list WCHAR)) (n : Z)
    (Hrun : _py_buffer_to_wchar E obj w = (Some (out, n), w1)) :
  exists name view bytes,
    obj = PyBytesLike name view
    /\ buf view = Some bytes
    /\ c_contiguous view = true /\ itemsize view = 1
    /\ 0 <= len view <= INT_MAX E
    /\ out = Some (MultiByteToWideChar E bytes (len view))
    /\ n = Z.of_nat (List.length (MultiByteToWideChar E bytes (len view)))
    /\ 0 < n
    /\ pyerr w1 = pyerr w.
Proof.
  unfold _py_buffer_to_wchar, malloc in Hrun.
  destruct obj as [| |name view| | | | |];
    try (unfold bind, ret, PyErr_Set in Hrun; discriminate).
  destruct (c_contiguous view) eqn:Hc; simpl in Hrun;
    [|unfold bind, ret, PyErr_Set in Hrun; discriminate].
  destruct (buf view) as [bytes|] eqn:Hb;
    [|unfold bind, ret, PyErr_Set in Hrun; discriminate].
  destruct (len view <? 0) eqn:Hneg;
    [unfold bind, ret, PyErr_Set in Hrun; discriminate|].
  destruct (itemsize view =? 1) eqn:Hi; simpl in Hrun;
    [|unfold bind, ret, PyErr_Set in Hrun; discriminate].
  destruct (len view >? INT_MAX E) eqn:Hmax;
    [unfold bind, ret, PyErr_Set in Hrun; discriminate|].
  unfold bind, call, ret, PyErr_Set in Hrun. simpl in Hrun.
  destruct (malloc_ok E _ _); simpl in Hrun; [|discriminate].
  destruct (Z.of_nat (List.length (MultiByteToWideChar E bytes (len view)))
            =? 0) eqn:Hz; simpl in Hrun; [discriminate|].
  inversion Hrun; subst. clear Hrun.
  apply Z.eqb_eq in Hi. apply Z.ltb_ge in Hneg.
  rewrite Z.gtb_ltb in Hmax. apply Z.ltb_ge in Hmax.
  apply Z.eqb_neq in Hz.
  exists name, view, bytes. repeat split; try assumption; try reflexivity.
  lia.
Qed.

Lemma converted_buffer_is_checked_witness :
  let view := {| buf := Some (bytes_of_string "pw"); len := 2;
                 itemsize := 1; c_contiguous := true |} in
  _py_buffer_to_wchar mock32 (PyBytesLike "bytes" view) w0
  = (Some (Some (L "pw"), 2), {| trace := [E_malloc 6]; pyerr := None |})
  /\ 0 <= len view <= INT_MAX mock32.
Proof.
  intros view.
  assert (Hrun : _py_buffer_to_wchar mock32 (PyBytesLike "bytes" view) w0
                 = (Some (Some (L "pw"), 2),
                    {| trace := [E_malloc 6]; pyerr := None |}))
    by reflexivity.
  split; [exact Hrun|].
  destruct (converted_buffer_is_checked mock32 _ w0 _ _ _ Hrun)
    as (name & view' & bytes & Ho & _ & _ & _ & Hlen & _).
  injection Ho as _ Hv. subst view'. exact Hlen.
Defined.

(** ** The identity handed to the engine *)

Lemma check_lengths_fit (E : Environment) (id : identity) (w : World) :
  id_ulen id <= ULONG_MAX E -> id_dlen id <= ULONG_MAX E ->
  id_plen id <= ULONG_MAX E ->
  check_lengths E id w = (false, w).
Proof.
  intros Hu Hd Hp. unfold check_lengths.
  unfold bind at 1. rewrite string_too_long_run.
  destruct (id_ulen id >? ULONG_MAX E) eqn:H1;
    [rewrite Z.gtb_ltb in H1; apply Z.ltb_lt in H1; lia|].
  unfold bind at 1. rewrite string_too_long_run.
  destruct (id_dlen id >? ULONG_MAX E) eqn:H2;
    [rewrite Z.gtb_ltb in H2; apply Z.ltb_lt in H2; lia|].
  rewrite string_too_long_run.
  destruct (id_plen id >? ULONG_MAX E) eqn:H3;
    [rewrite Z.gtb_ltb in H3; apply Z.ltb_lt in H3; lia|].
  reflexivity.
Qed.

(** X14. An explicit user takes precedence over the principal: when
    [gssflags] is not negative, the five arguments convert to an
    identity with a user and the three lengths fit a ULONG,
    [sspi_client_init] goes on to create the context with exactly the
    converted user, domain and password.  The principal has to convert
    but nothing is taken from it, and a colon in the user is not a
    separator. *)
Theorem explicit_user_wins (E : Environment)
    (serviceobj principalobj : PyObject) (gssflags : Z)
    (userobj domainobj passwordobj mechoidobj : PyObject) (w w1 : World)
    (service principal : option (list WCHAR)) (id : identity)
    (user : list WCHAR)
    (Hflags : 0 <= gssflags)
    (Hconv : convert_arguments E serviceobj principalobj userobj domainobj
               passwordobj w = (Some (service, principal, id), w1))
    (Huser : id_user id = Some user)
    (Hulen : id_ulen id <= ULONG_MAX E)
    (Hdlen : id_dlen id <= ULONG_MAX E)
    (Hplen : id_plen id <= ULONG_MAX E) :
  resolve_identity E principal id w1 = (Some id, w1)
  /\ sspi_client_init E serviceobj principalobj gssflags userobj domainobj
       passwordobj mechoidobj w
     = create_context E service gssflags id mechoidobj w1.
Proof.
  assert (Hres : resolve_identity E principal id w1 = (Some id, w1)).
  { unfold resolve_identity. rewrite Huser. reflexivity. }
  split; [exact Hres|].
  eapply init_hands_the_identity_on; try eassumption.
  now apply check_lengths_fit.
Qed.

Lemma explicit_user_wins_witness :
  let id := {| id_user := Some (L "a:b"); id_ulen := 3;
               id_domain := None; id_dlen := 0;
               id_password := Some (L "p"); id_plen := 1 |} in
  let w1 := {| trace := [E_malloc 26; E_malloc 8; E_malloc 8; E_malloc 4];
               pyerr := None |} in
  sspi_client_init mock32 (PyUnicode (L "service@host"))
    (PyUnicode (L "x:y")) 0 (PyUnicode (L "a:b")) Py_None
    (PyUnicode (L "p")) Py_None w0
  = create_context mock32 (Some (L "service@host")) 0 id Py_None w1.
Proof.
  intros id w1.
  assert (Hconv :
    convert_arguments mock32 (PyUnicode (L "service@host"))
      (PyUnicode (L "x:y")) (PyUnicode (L "a:b")) Py_None
      (PyUnicode (L "p")) w0
    = (Some (Some (L "service@host"), Some (L "x:y"), id), w1))
    by reflexivity.
  refine (proj2 (explicit_user_wins mock32 _ _ 0 _ _ _ Py_None w0 w1 _ _ id
                   (L "a:b") _ Hconv eq_refl _ _ _));
    vm_compute; discriminate.
Defined.

(** X15. Without an explicit user, a principal without colon is the
    user, URL-unescaped, and there is no password: a password and a
    domain supplied as arguments are dropped.  The lengths of the
    dropped domain and password are kept as they were. *)
Theorem principal_without_colon (E : Environment) (principal : list WCHAR)
    (id : identity) (w : World)
    (Hnouser : id_user id = None)
    (Hnocolon : wcschr principal (wchar_of_ascii ":") = false)
    (Halloc : malloc_ok E (trace w) (sizeof_WCHAR * (wcslen principal + 1))
              = true)
    (Hunescape : fst (UrlUnescapeW E (wcs principal)) = S_OK) :
  let user := snd (UrlUnescapeW E (wcs principal)) in
  resolve_identity E (Some principal) id w
  = (Some {| id_user := Some user; id_ulen := wcslen user;
             id_domain := None; id_dlen := id_dlen id;
             id_password := None; id_plen := id_plen id |},
     {| trace := trace w ++ [E_malloc (sizeof_WCHAR
                                       * (wcslen principal + 1))];
        pyerr := pyerr w |}).
Proof.
  intros user. unfold resolve_identity. rewrite Hnouser, Hnocolon.
  unfold _wcsdup, malloc, bind, call, ret. simpl. rewrite Halloc.
  fold user.
  destruct (UrlUnescapeW E (wcs principal)) as [res user'] eqn:Hu.
  simpl in Hunescape. subst res. subst user. reflexivity.
Qed.

Lemma principal_without_colon_witness :
  fst (resolve_identity mock32 (Some (L "bob"))
         {| id_user := None; id_ulen := 0;
            id_domain := Some (L "D"); id_dlen := 1;
            id_password := Some (L "old"); id_plen := 3 |} w0)
  = Some {| id_user := Some (L "bob"); id_ulen := 3;
            id_domain := None; id_dlen := 1;
            id_password := None; id_plen := 3 |}.
Proof.
  exact (f_equal fst
           (principal_without_colon mock32 (L "bob")
              {| id_user := None; id_ulen := 0;
                 id_domain := Some (L "D"); id_dlen := 1;
                 id_password := Some (L "old"); id_plen := 3 |} w0
              eq_refl eq_refl eq_refl eq_refl)).
Defined.

Lemma wcs_nonzero (s : list WCHAR) :
  Forall (fun c => c <> 0) s -> wcs s = s.
Proof.
  induction 1 as [|c s Hc _ IH]; simpl; [reflexivity|].
  destruct (c =? 0) eqn:Hz; [apply Z.eqb_eq in Hz; contradiction|].
  now rewrite IH.
Qed.

Lemma skip_colons (colons rest : list WCHAR) :
  only_colons colons ->
  skip_delimiters (L ":") (colons ++ rest) = skip_delimiters (L ":") rest.
Proof.
  induction 1 as [|c colons Hc _ IH]; [reflexivity|].
  simpl app. cbn [skip_delimiters].
  rewrite wchar_in_colon. subst c. rewrite Z.eqb_refl. exact IH.
Qed.

Lemma wcstok_s_single (c1 u c2 : list WCHAR) :
  only_colons c1 -> plain_part u -> only_colons c2 ->
  exists next,
    wcstok_s None (L ":") (c1 ++ u ++ c2) = (Some u, next)
    /\ wcstok_s None (L ":") next = (None, []).
Proof.
  intros H1 [Hne Hu] H2.
  destruct (split_token_plain u [] Hu) as [_ Hend].
  unfold wcstok_s. rewrite (skip_colons c1 (u ++ c2) H1).
  destruct u as [|c u]; [contradiction|].
  inversion Hu as [|? ? [_ Hc] Hu']; subst.
  simpl app. cbn [skip_delimiters]. rewrite wchar_in_colon.
  destruct (c =? wchar_of_ascii ":") eqn:Hz;
    [apply Z.eqb_eq in Hz; contradiction|].
  destruct H2 as [|d c2 Hd H2].
  - rewrite app_nil_r. rewrite Hend. exists []. split; reflexivity.
  - subst d.
    destruct (split_token_plain (c :: u) c2 Hu) as [Hmid _].
    simpl app in Hmid. rewrite Hmid. exists c2. split; [reflexivity|].
    pose proof (skip_colons c2 [] H2) as Hs. rewrite app_nil_r in Hs.
    rewrite Hs. reflexivity.
Qed.

(** X16. Without an explicit user, a principal that has a colon but a
    single non-empty part (as in "alice:" or ":secret") makes
    [resolve_identity] fail with a MemoryError once that part has been
    copied: the second token is missing. *)
Theorem principal_with_one_part (E : Environment) (c1 u c2 : list WCHAR)
    (id : identity) (w : World)
    (Hnouser : id_user id = None)
    (Hc1 : only_colons c1) (Hu : plain_part u) (Hc2 : only_colons c2)
    (Hcolon : c1 <> [] \/ c2 <> [])
    (Halloc : malloc_ok E (trace w) (sizeof_WCHAR * (wcslen u + 1)) = true) :
  resolve_identity E (Some (c1 ++ u ++ c2)) id w
  = (None,
     {| trace := trace w ++ [E_malloc (sizeof_WCHAR * (wcslen u + 1))];
        pyerr := Some PyExc_MemoryError |}).
Proof.
  assert (Hnz : Forall (fun c => c <> 0) (c1 ++ u ++ c2)).
  { apply Forall_app. split; [|apply Forall_app; split].
    - eapply Forall_impl; [|exact Hc1]. intros c ->. discriminate.
    - eapply Forall_impl; [|exact (proj2 Hu)]. intros c [H _]. exact H.
    - eapply Forall_impl; [|exact Hc2]. intros c ->. discriminate. }
  assert (Hchr : wcschr (c1 ++ u ++ c2) (wchar_of_ascii ":") = true).
  { unfold wcschr. rewrite (wcs_nonzero _ Hnz). unfold wchar_in.
    rewrite !existsb_app.
    destruct Hcolon as [H | H].
    - destruct Hc1 as [|c c1 Hc _]; [contradiction|]. subst c. reflexivity.
    - destruct Hc2 as [|c c2 Hc _]; [contradiction|]. subst c.
      simpl. rewrite !orb_true_r. reflexivity. }
  destruct (wcstok_s_single c1 u c2 Hc1 Hu Hc2) as (next & Htok1 & Htok2).
  unfold resolve_identity. rewrite Hnouser, Hchr.
  change (wcstok_s (Some (c1 ++ u ++ c2)) (L ":") [])
    with (wcstok_s None (L ":") (wcs (c1 ++ u ++ c2))).
  rewrite (wcs_nonzero _ Hnz), Htok1.
  unfold _wcsdup, malloc. unfold bind, call, ret, PyErr_Set. simpl.
  rewrite Halloc. rewrite Htok2. reflexivity.
Qed.

Lemma principal_with_one_part_witness :
  plain_part (L "alice")
  /\ resolve_identity mock32 (Some (L "alice:"))
       {| id_user := None; id_ulen := 0; id_domain := None; id_dlen := 0;
          id_password := None; id_plen := 0 |} w0
     = (None, {| trace := [E_malloc 12]; pyerr := Some PyExc_MemoryError |}).
Proof.
  assert (Hu : plain_part (L "alice"))
    by (split; [discriminate | repeat constructor; discriminate]).
  split; [exact Hu|].
  refine (principal_with_one_part mock32 [] (L "alice") (L ":")
            {| id_user := None; id_ulen := 0; id_domain := None;
               id_dlen := 0; id_password := None; id_plen := 0 |} w0
            eq_refl _ Hu _ _ eq_refl).
  - constructor.
  - repeat constructor.
  - right. discriminate.
Defined.

(** ** Creating the context *)

Lemma destroy_run (state : sspi_client_state) (w : World) :
  trace (snd (destroy_sspi_client_state state w))
  = trace w
    ++ (if haveCtx state then [E_DeleteSecurityContext (ctx state)] else [])
    ++ (if haveCred state then [E_FreeCredentialsHandle (cred state)] else [])
  /\ pyerr (snd (destroy_sspi_client_state state w)) = pyerr w.
Proof.
  destruct state as [c x sp r u f hc hx q].
  destruct hc, hx, sp, r, u;
    unfold destroy_sspi_client_state, bind, call, ret; simpl;
    rewrite <- ?app_assoc, ?app_nil_r; split; reflexivity.
Qed.

(** X17. Once the mechanism is settled, the state allocated and its
    capsule created, [create_context] calls the engine with the service,
    the flags and the identity it was given.  When the engine returns
    [AUTH_GSS_ERROR], the result is NULL and the capsule is dropped,
    which releases the handles the engine left in the state, the
    security context before the credentials; otherwise the result is
    the pair of the status and the capsule and nothing is released.  The
    error indicator is the one the engine set, if it set one. *)
Theorem create_context_outcome (E : Environment)
    (service : option (list WCHAR)) (gssflags : Z) (id : identity)
    (mechoidobj : PyObject) (mechoid : option (list WCHAR)) (w : World)
    (Hmech : resolve_mech_oid E mechoidobj w = (Some mechoid, w))
    (Halloc : malloc_ok E (trace w) (sizeof_sspi_client_state E) = true)
    (Hcapsule : PyCapsule_New_ok E
                  (trace w ++ [E_malloc (sizeof_sspi_client_state E)])
                = true) :
  let args := {| ci_service := service; ci_flags := to_ULONG E gssflags;
                 ci_user := id_user id; ci_ulen := to_ULONG E (id_ulen id);
                 ci_domain := id_domain id;
                 ci_dlen := to_ULONG E (id_dlen id);
                 ci_password := id_password id;
                 ci_plen := to_ULONG E (id_plen id);
                 ci_mechoid := mechoid |} in
  let made := trace w ++ [E_malloc (sizeof_sspi_client_state E);
                          E_PyCapsule_New] in
  let '(result, state, err) := auth_sspi_client_init_W E made args in
  let '(object, w') := create_context E service gssflags id mechoidobj w in
  pyerr w' = match err with Some _ => err | None => pyerr w end
  /\ if is_error result then
       object = None
       /\ trace w'
          = made ++ E_auth_sspi_client_init args
            :: (if haveCtx state
                then [E_DeleteSecurityContext (ctx state)] else [])
            ++ (if haveCred state
                then [E_FreeCredentialsHandle (cred state)] else [])
     else
       object = Some (PyTuple (PyInt_AUTH_GSS result)
                        (PyCapsule (client_state_ptr state)))
       /\ trace w' = made ++ [E_auth_sspi_client_init args].
Proof.
  intros args made.
  unfold create_context. unfold bind at 1. rewrite Hmech.
  unfold malloc. unfold bind at 1. unfold call at 1. cbn [trace pyerr].
  rewrite Halloc. cbn [negb].
  unfold bind at 1. unfold call at 1. cbn [trace pyerr].
  rewrite Hcapsule. cbn [negb].
  unfold bind at 1. unfold call at 1. cbn [trace pyerr].
  rewrite <- app_assoc.
  change (trace w ++ [E_malloc (sizeof_sspi_client_state E)]
          ++ [E_PyCapsule_New]) with made.
  fold args.
  destruct (auth_sspi_client_init_W E made args) as [[result state] err].
  unfold bind at 1. unfold PyErr_SetOpt at 1. cbn [trace pyerr].
  destruct (is_error result).
  - unfold destroy_sspi_client. unfold bind at 1. unfold bind at 1.
    match goal with |- context [destroy_sspi_client_state state ?w1] =>
      pose proof (destroy_run state w1) as [Ht He];
      destruct (destroy_sspi_client_state state w1) as [s2 w2] end.
    simpl in Ht, He. unfold ret. simpl.
    rewrite He, Ht. rewrite <- app_assoc. repeat split.
  - unfold ret. simpl. repeat split.
Qed.

Lemma create_context_outcome_witness :
  resolve_mech_oid mock32 Py_None w0 = (Some (Some (L "Kerberos")), w0)
  /\ fst (create_context mock32 (Some (L "service/host")) 0
            {| id_user := Some (L "u"); id_ulen := 1; id_domain := None;
               id_dlen := 0; id_password := None; id_plen := 0 |}
            Py_None w0)
     = Some (PyTuple (PyInt_AUTH_GSS AUTH_GSS_COMPLETE)
               (PyCapsule (client_state_ptr
                             (set_haveCred zeroed_state true)))).
Proof.
  split; [reflexivity|].
  pose proof (create_context_outcome mock32 (Some (L "service/host")) 0
                {| id_user := Some (L "u"); id_ulen := 1; id_domain := None;
                   id_dlen := 0; id_password := None; id_plen := 0 |}
                Py_None (Some (L "Kerberos")) w0 eq_refl eq_refl eq_refl)
    as H.
  cbv zeta in H.
  destruct (auth_sspi_client_init_W mock32 _ _) as [[result state] err]
    eqn:Hengine.
  vm_compute in Hengine. inversion Hengine; subst.
  destruct (create_context mock32 _ _ _ _ _) as [object w'].
  simpl in H. destruct H as (_ & Ho & _). simpl. rewrite Ho. reflexivity.
Defined.

(** ** What the getters return after a step *)



